(** * Al-Noor backend: the Stripe transactions controller

    A shallow embedding of the Stripe controller ([controller.js], the
    module [src/controllers/stripe/routes.js] imports; its text follows
    the Express application in [src/app.js]): the two request handlers
    [transactions] and [exportTransactionsToCSV], the pagination loop
    [fetchTransactions] and the field mapping [mapTransactionData], over
    a small model of the JavaScript values the controller manipulates.

    - JavaScript numbers are IEEE-754 binary64 values: Rocq's primitive
      floats.
    - A charge is a JSON object; its fields hold arbitrary JSON values and
      reading an absent field gives [undefined].
    - The Stripe client is a script of answers, one per call of
      [stripeInstance.charges.list]; each answer may depend on the
      parameters of the call, resolve to a page or reject.
    - The operations of the JavaScript runtime whose definition lies
      outside the controller (string to number conversion, date parsing,
      upper-casing, the json2csv parser) are the fields of a [Runtime]. *)

From Stdlib Require Import List String Ascii ZArith Bool Lia Floats Uint63.
From Stdlib Require Import DecimalString.
Import ListNotations.

#[local] Set Warnings "-register-all".
Local Open Scope string_scope.
Local Open Scope Z_scope.

(** ** JavaScript values *)

Module JS.

Inductive value : Type :=
| VUndefined
| VNull
| VBool (b : bool)
| VNum (x : float)
| VStr (s : string)
| VArr (items : list value)
| VObj (fields : list (string * value)).

(** The errors the controller can meet: the two the language raises
    ([TypeError] on a property read of [undefined]/[null] or a call of a
    non function, [RangeError] on [toISOString] of an invalid date) and a
    rejection of the Stripe client. *)
Inductive error : Type :=
| TypeError
| RangeError
| StripeError (message : string).

Inductive result (A : Type) : Type :=
| Ok (a : A)
| Throw (e : error).
Arguments Ok {A} a.
Arguments Throw {A} e.

Definition bind {A B : Type} (r : result A) (k : A -> result B) : result B :=
  match r with
  | Ok a => k a
  | Throw e => Throw e
  end.

Notation "x <- r ;; k" := (bind r (fun x => k))
  (at level 61, r at next level, right associativity).

(** An awaited computation returns, throws, or never settles. *)
Inductive completion (A : Type) : Type :=
| Returned (a : A)
| Threw (e : error)
| Pending.
Arguments Returned {A} a.
Arguments Threw {A} e.
Arguments Pending {A}.

Definition NaN : float := PrimFloat.nan.

Definition isNaN (x : float) : bool := negb (PrimFloat.eqb x x).

(** ToBoolean. *)
Definition truthy (v : value) : bool :=
  match v with
  | VUndefined | VNull => false
  | VBool b => b
  | VNum x => negb (PrimFloat.eqb x PrimFloat.zero) && negb (isNaN x)
  | VStr s => negb (String.eqb s "")
  | VArr _ | VObj _ => true
  end.

Definition nullish (v : value) : bool :=
  match v with
  | VUndefined | VNull => true
  | _ => false
  end.

(** Own property of an object, [undefined] when absent. *)
Fixpoint prop (fields : list (string * value)) (k : string) : value :=
  match fields with
  | [] => VUndefined
  | (k', v) :: rest => if String.eqb k k' then v else prop rest k
  end.

(** [v.k]: a [TypeError] on [undefined] and [null].  On a string, number,
    boolean or array the result is [undefined]: none of the names the
    controller reads is a data property of those, and the one inherited
    method among them ([String.prototype.link]) is only read through
    [?.funding], which is [undefined] on it too. *)
Definition get (v : value) (k : string) : result value :=
  match v with
  | VUndefined | VNull => Throw TypeError
  | VObj fields => Ok (prop fields k)
  | _ => Ok VUndefined
  end.

(** [v?.k] *)
Definition oget (v : value) (k : string) : value :=
  match v with
  | VObj fields => prop fields k
  | _ => VUndefined
  end.

(** [v[0]] *)
Definition index0 (v : value) : result value :=
  match v with
  | VUndefined | VNull => Throw TypeError
  | VArr items => Ok (nth 0 items VUndefined)
  | VStr s =>
      Ok match String.get 0 s with
         | Some c => VStr (String c EmptyString)
         | None => VUndefined
         end
  | VObj fields => Ok (prop fields "0")
  | _ => Ok VUndefined
  end.

(** [a || b] *)
Definition or (a b : value) : value := if truthy a then a else b.

(** [v === "literal"] *)
Definition strict_eq_string (v : value) (lit : string) : bool :=
  match v with
  | VStr s => String.eqb s lit
  | _ => false
  end.

End JS.
Import JS.

(** ** Dates

    A [Date] object is its time value: [Some t], milliseconds since the
    epoch, or [None] for an invalid date (the time value NaN). *)

Module Date.

Definition msPerDay : Z := 86400000.
Definition maxTime : Z := 8640000000000000.

(** ToIntegerOrInfinity on a finite number: truncation towards zero. *)
Definition truncate (x : float) : option Z :=
  match Prim2SF x with
  | S754_zero _ => Some 0
  | S754_finite s m e =>
      let a := if 0 <=? e then Z.pos m * 2 ^ e else Z.pos m / 2 ^ (- e) in
      Some (if s then - a else a)
  | S754_infinity _ | S754_nan => None
  end.

(** TimeClip: what [new Date(number)] stores. *)
Definition TimeClip (x : float) : option Z :=
  match truncate x with
  | Some t => if Z.abs t <=? maxTime then Some t else None
  | None => None
  end.

(** The last [width] decimal digits of [n], in front of [acc]. *)
Fixpoint digits (width : nat) (n : Z) (acc : string) : string :=
  match width with
  | O => acc
  | S w =>
      digits w (n / 10)
        (String (ascii_of_nat (48 + Z.to_nat (n mod 10))) acc)
  end.

(** Year, month and day of a day number counted from 1970-01-01, in the
    proleptic Gregorian calendar. *)
Definition civil_from_days (day : Z) : Z * Z * Z :=
  let z := day + 719468 in
  let era := z / 146097 in
  let doe := z - era * 146097 in
  let yoe := (doe - doe / 1460 + doe / 36524 - doe / 146096) / 365 in
  let doy := doe - (365 * yoe + yoe / 4 - yoe / 100) in
  let mp := (5 * doy + 2) / 153 in
  let d := doy - (153 * mp + 2) / 5 + 1 in
  let m := if mp <? 10 then mp + 3 else mp - 9 in
  let y := yoe + era * 400 in
  (if m <=? 2 then y + 1 else y, m, d).

Definition days_from_civil (y m d : Z) : Z :=
  let y := if m <=? 2 then y - 1 else y in
  let era := y / 400 in
  let yoe := y - era * 400 in
  let doy := (153 * (if 2 <? m then m - 3 else m + 9) + 2) / 5 + d - 1 in
  let doe := yoe * 365 + yoe / 4 - yoe / 100 + doy in
  era * 146097 + doe - 719468.

(** [date.toISOString()]: a [RangeError] on an invalid date. *)
Definition toISOString (date : option Z) : result string :=
  match date with
  | None => Throw RangeError
  | Some t =>
      let ms := t mod msPerDay in
      let '(y, m, d) := civil_from_days (t / msPerDay) in
      let year :=
        if (0 <=? y) && (y <=? 9999) then digits 4 y ""
        else (if y <? 0 then "-" else "+") ++ digits 6 (Z.abs y) "" in
      Ok (year ++ "-" ++ digits 2 m "" ++ "-" ++ digits 2 d "" ++ "T"
          ++ digits 2 (ms / 3600000) "" ++ ":"
          ++ digits 2 (ms / 60000 mod 60) "" ++ ":"
          ++ digits 2 (ms / 1000 mod 60) "" ++ "."
          ++ digits 3 (ms mod 1000) "" ++ "Z")
  end.

(** [Math.floor(date.getTime() / 1000)] for a valid date.  A time value is
    an integer below 2^53 in magnitude, so the binary64 quotient lies
    within 2^-11 of the exact one and has the same floor. *)
Definition epochSeconds (t : Z) : Z := t / 1000.

End Date.

(** ** The runtime

    Operations the controller calls and does not define. *)

Record Runtime : Type := {
  (** ToString of a value that is not a string *)
  ToString : value -> string;
  (** ToNumber of a string *)
  StringToNumber : string -> float;
  (** the time value [Date.parse] reads from a string *)
  Date_parse : string -> option Z;
  (** [parseInt] of a string *)
  parseInt_string : string -> float;
  (** [String.prototype.toUpperCase] *)
  toUpperCase : string -> string;
  (** [new Parser({ fields }).parse(rows)] of json2csv *)
  json2csv_parse : list string -> list (list (string * value)) -> result string
}.

Definition toString (rt : Runtime) (v : value) : string :=
  match v with
  | VStr s => s
  | _ => ToString rt v
  end.

(** ToNumber, on a value that converts.  An array or an object goes
    through its conversion to a string, which can throw (see [converts]
    below); that [TypeError] is left out here.  [ToNumber] is applied to
    the fields of a charge that the controller does arithmetic on, which
    Stripe sends as numbers; where a statement is about charges holding
    anything, it says that these fields convert. *)
Definition ToNumber (rt : Runtime) (v : value) : float :=
  match v with
  | VUndefined => NaN
  | VNull => PrimFloat.zero
  | VBool b => if b then PrimFloat.one else PrimFloat.zero
  | VNum x => x
  | VStr s => StringToNumber rt s
  | VArr _ | VObj _ => StringToNumber rt (ToString rt v)
  end.

(** [fields] has a property of its own named [k]. *)
Definition has_own (fields : list (string * value)) (k : string) : bool :=
  existsb (fun field => String.eqb k (fst field)) fields.

(** Whether the conversion of [v] to a primitive succeeds.  The values
    are data (JSON, or a parsed query string): a property of an object is
    never a function.  So an object with a property of its own named
    [toString] has no callable [toString]; its [valueOf], inherited or
    not, gives no primitive either, and the conversion throws a
    [TypeError].  Any other object converts, to "[object Object]".  An
    array converts by [join], which converts each element that is not
    [undefined] or [null]. *)
Fixpoint converts (v : value) : bool :=
  match v with
  | VObj fields => negb (has_own fields "toString")
  | VArr items => forallb converts items
  | _ => true
  end.

(** ToString, with its error. *)
Definition convert (rt : Runtime) (v : value) : result string :=
  if converts v then Ok (toString rt v) else Throw TypeError.

(** [new Date(v)]: the conversion of an array or an object can throw. *)
Definition new_Date (rt : Runtime) (v : value) : result (option Z) :=
  match v with
  | VStr s => Ok (Date_parse rt s)
  | VArr _ | VObj _ => s <- convert rt v ;; Ok (Date_parse rt s)
  | _ => Ok (Date.TimeClip (ToNumber rt v))
  end.

(** [parseInt(v)] *)
Definition parseInt (rt : Runtime) (v : value) : result float :=
  s <- convert rt v ;; Ok (parseInt_string rt s).

(** [a / b] and [a * b] *)
Definition div (rt : Runtime) (a : value) (b : float) : value :=
  VNum (PrimFloat.div (ToNumber rt a) b).

Definition mul (rt : Runtime) (a : value) (b : float) : float :=
  PrimFloat.mul (ToNumber rt a) b.

(** ** The Stripe client *)

(** A charge: the fields of the JSON object. *)
Definition Charge : Type := list (string * value).

(** The argument of [stripeInstance.charges.list]. *)
Record Params : Type := {
  created_gte : Z;
  created_lte : Z;
  limit : Z;
  status : string;
  starting_after : option value
}.

(** What the call resolves to. *)
Record Page : Type := {
  data : list Charge;
  has_more : bool
}.

Inductive answer : Type :=
| Resolve (response : Page)
| Reject (e : error).

(** The client, as the controller sees it: the answer to each successive
    call, given the parameters of that call.  A call past the end of the
    script is never answered. *)
Definition Source : Type := list (Params -> answer).

(** A source that answers the successive calls with the given pages,
    whatever the parameters. *)
Definition paged (pages : list Page) : Source :=
  map (fun page _ => Resolve page) pages.

(** ** [fetchTransactions] *)

(** The variables of the loop. *)
Record LoopState : Type := {
  hasMore : bool;
  charges : list Charge;
  startingAfter : value
}.

(** [let hasMore = true; let charges = []; let startingAfter = null;] *)
Definition initial : LoopState :=
  {| hasMore := true; charges := []; startingAfter := VNull |}.

(** The [params] of one iteration: [starting_after] is only added if
    [startingAfter] has a value. *)
Definition loop_params (startDate endDate : Z) (st : LoopState) : Params :=
  {| created_gte := startDate;
     created_lte := endDate;
     limit := 10;
     status := "succeeded";
     starting_after :=
       if truthy (startingAfter st) then Some (startingAfter st) else None |}.

(** [response.data[response.data.length - 1]] *)
Definition last_record (response : Page) : Charge :=
  nth (List.length (data response) - 1) (data response) [].

(** The body of the loop after the [await]. *)
Definition loop_body (response : Page) (st : LoopState) : LoopState :=
  let charges := (charges st ++ data response)%list in
  let hasMore := has_more response in
  if (0 <? List.length (data response))%nat then
    {| hasMore := hasMore;
       charges := charges;
       startingAfter := prop (last_record response) "id" |}
  else
    {| hasMore := false;
       charges := charges;
       startingAfter := startingAfter st |}.

(** [while (hasMore) { ... }]: the requests issued, and how the loop ends. *)
Fixpoint while_hasMore (startDate endDate : Z) (stripe : Source)
    (st : LoopState) : list Params * completion LoopState :=
  if hasMore st then
    let params := loop_params startDate endDate st in
    match stripe with
    | [] => ([params], Pending)
    | list :: stripe' =>
        match list params with
        | Reject e => ([params], Threw e)
        | Resolve response =>
            let '(requests, outcome) :=
              while_hasMore startDate endDate stripe' (loop_body response st) in
            (params :: requests, outcome)
        end
    end
  else ([], Returned st).

Definition succeeded (charge : Charge) : bool :=
  strict_eq_string (prop charge "status") "succeeded".

Definition fetchTransactions (startDate endDate : Z) (stripe : Source)
    : list Params * completion (list Charge) :=
  let '(requests, outcome) := while_hasMore startDate endDate stripe initial in
  (requests,
   match outcome with
   | Returned st => Returned (filter succeeded (charges st))
   | Threw e => Threw e
   | Pending => Pending
   end).

(** A page that is not empty and announces more: the loop goes on after
    it. *)
Definition continues (page : Page) : Prop :=
  data page <> [] /\ has_more page = true.

(** A page after which the loop stops: empty, or without [has_more]. *)
Definition stops (page : Page) : Prop :=
  data page = [] \/ has_more page = false.

(** The number of records of a script of pages. *)
Definition record_count (pages : list Page) : nat :=
  list_sum (map (fun page => List.length (data page)) pages).

(** ** [mapTransactionData] *)

(** The object built for one charge: the field names in the order of the
    object literal, with their values. *)
Definition FlatRecord : Type := list (string * value).

(** An object literal evaluates its initialisers in order; the first one
    that throws ends the evaluation. *)
Fixpoint object_literal (inits : list (string * result value))
    : result FlatRecord :=
  match inits with
  | [] => Ok []
  | (k, init) :: rest =>
      v <- init ;; o <- object_literal rest ;; Ok ((k, v) :: o)
  end.

(** [v.toUpperCase()]: a [TypeError] unless [v] is a string. *)
Definition call_toUpperCase (rt : Runtime) (v : value) : result value :=
  match v with
  | VStr s => Ok (VStr (toUpperCase rt s))
  | _ => Throw TypeError
  end.

(** [new Date(seconds * 1000).toISOString()] *)
Definition isoDate (rt : Runtime) (seconds : value) : result value :=
  s <- Date.toISOString (Date.TimeClip (mul rt seconds 1000%float)) ;;
  Ok (VStr s).

Declare Scope js_scope.
Delimit Scope js_scope with js.
Notation "a || b" := (or a b) : js_scope.
Notation "a ?. k" := (oget a k) (at level 20, left associativity) : js_scope.
Notation "a === s" := (VBool (strict_eq_string a s)) (at level 70) : js_scope.
Notation "'If' c 'then' a 'else' b" := (if truthy c then a else b)
  (at level 10, c at level 200, a at level 200, b at level 200,
   only parsing) : js_scope.
Coercion VStr : string >-> value.

Section MapCharge.
Local Open Scope js_scope.
Variable rt : Runtime.
Variable charge : Charge.

(** [c "k"] is [charge.k]. *)
Local Abbreviation c := (prop charge).
Local Abbreviation hundred := (100%float).

Definition mapCharge_inits : list (string * result value) :=
  [ ("ID", Ok (c "id"));
    ("Created date (UTC)", isoDate rt (c "created"));
    ("Amount", Ok (div rt (c "amount") hundred));
    ("Amount Refunded", Ok (div rt (c "amount_refunded") hundred));
    ("Currency", call_toUpperCase rt (c "currency"));
    ("Captured", Ok (c "captured"));
    ("Converted Amount", Ok (div rt (c "amount_captured") hundred));
    ("Converted Amount Refunded", Ok (div rt (c "amount_refunded") hundred));
    ("Converted Currency", call_toUpperCase rt (c "currency"));
    ("Decline Reason", Ok (c "failure_message" || ""));
    ("Description", Ok (c "description" || ""));
    ("Fee",
      If c "balance_transaction"
      then fee <- get (c "balance_transaction") "fee" ;; Ok (div rt fee hundred)
      else Ok (VStr ""));
    ("Is Link", Ok (c "payment_method_details" ?. "type" === "link"));
    ("Link Funding",
      Ok (c "payment_method_details" ?. "link" ?. "funding" || ""));
    ("Mode",
      Ok (If c "payment_intent" then VStr "payment_intent" else VStr "charge"));
    ("PaymentIntent ID", Ok (c "payment_intent" || ""));
    ("Payment Source Type", Ok (c "payment_method_details" ?. "type" || ""));
    ("Refunded date (UTC)",
      If c "refunded"
      then refunds_data <- get (c "refunds") "data" ;;
           refund <- index0 refunds_data ;;
           created <- get refund "created" ;;
           isoDate rt created
      else Ok (VStr ""));
    ("Statement Descriptor", Ok (c "statement_descriptor" || ""));
    ("Status", Ok (c "status"));
    ("Seller Message", Ok (c "outcome" ?. "seller_message" || ""));
    ("Taxes On Fee",
      If c "balance_transaction"
      then tax <- get (c "balance_transaction") "tax" ;; Ok (tax || "")
      else Ok (VStr ""));
    ("Card ID", Ok (c "payment_method_details" ?. "card" ?. "id" || ""));
    ("Card Name", Ok (c "payment_method_details" ?. "card" ?. "name" || ""));
    ("Card Address Line1",
      Ok (c "payment_method_details" ?. "card" ?. "address_line1" || ""));
    ("Card Address Line2",
      Ok (c "payment_method_details" ?. "card" ?. "address_line2" || ""));
    ("Card Address City",
      Ok (c "payment_method_details" ?. "card" ?. "address_city" || ""));
    ("Card Address State",
      Ok (c "payment_method_details" ?. "card" ?. "address_state" || ""));
    ("Card Address Country",
      Ok (c "payment_method_details" ?. "card" ?. "address_country" || ""));
    ("Card Address Zip",
      Ok (c "payment_method_details" ?. "card" ?. "address_zip" || ""));
    ("Card AVS Line1 Status",
      Ok (c "payment_method_details" ?. "card" ?. "checks"
            ?. "address_line1_check" || ""));
    ("Card AVS Zip Status",
      Ok (c "payment_method_details" ?. "card" ?. "checks"
            ?. "address_zip_check" || ""));
    ("Card Brand", Ok (c "payment_method_details" ?. "card" ?. "brand" || ""));
    ("Card CVC Status",
      Ok (c "payment_method_details" ?. "card" ?. "checks" ?. "cvc_check" || ""));
    ("Card Exp Month",
      Ok (c "payment_method_details" ?. "card" ?. "exp_month" || ""));
    ("Card Exp Year",
      Ok (c "payment_method_details" ?. "card" ?. "exp_year" || ""));
    ("Card Fingerprint",
      Ok (c "payment_method_details" ?. "card" ?. "fingerprint" || ""));
    ("Card Funding",
      Ok (c "payment_method_details" ?. "card" ?. "funding" || ""));
    ("Card Issue Country",
      Ok (c "payment_method_details" ?. "card" ?. "country" || ""));
    ("Card Last4", Ok (c "payment_method_details" ?. "card" ?. "last4" || ""));
    ("Card Tokenization Method",
      Ok (c "payment_method_details" ?. "card" ?. "tokenization_method" || ""));
    ("Customer ID", Ok (c "customer" || ""));
    ("Customer Description",
      If c "customer" then get (c "customer") "description" else Ok (VStr ""));
    ("Customer Email", Ok (c "receipt_email" || ""));
    ("Customer Phone", Ok (c "billing_details" ?. "phone" || ""));
    ("Shipping Name", Ok (c "shipping" ?. "name" || ""));
    ("Shipping Address Line1", Ok (c "shipping" ?. "address" ?. "line1" || ""));
    ("Shipping Address Line2", Ok (c "shipping" ?. "address" ?. "line2" || ""));
    ("Shipping Address City", Ok (c "shipping" ?. "address" ?. "city" || ""));
    ("Shipping Address State", Ok (c "shipping" ?. "address" ?. "state" || ""));
    ("Shipping Address Country",
      Ok (c "shipping" ?. "address" ?. "country" || ""));
    ("Shipping Address Postal Code",
      Ok (c "shipping" ?. "address" ?. "postal_code" || ""));
    ("Disputed Amount",
      If c "dispute"
      then amount <- get (c "dispute") "amount" ;; Ok (div rt amount hundred)
      else Ok (VStr ""));
    ("Dispute Reason",
      If c "dispute" then get (c "dispute") "reason" else Ok (VStr ""));
    ("Dispute Status",
      If c "dispute" then get (c "dispute") "status" else Ok (VStr ""));
    ("Invoice ID", Ok (c "invoice" || ""));
    ("Invoice Number", Ok (If c "invoice" then c "invoice_number" else VStr ""));
    ("Checkout Session ID", Ok (c "checkout_session" || ""));
    ("Checkout Custom Field 1 Key",
      Ok (c "metadata" ?. "custom_field_1_key" || ""));
    ("Checkout Custom Field 1 Value",
      Ok (c "metadata" ?. "custom_field_1_value" || ""));
    ("Checkout Custom Field 2 Key",
      Ok (c "metadata" ?. "custom_field_2_key" || ""));
    ("Checkout Custom Field 2 Value",
      Ok (c "metadata" ?. "custom_field_2_value" || ""));
    ("Checkout Custom Field 3 Key",
      Ok (c "metadata" ?. "custom_field_3_key" || ""));
    ("Checkout Custom Field 3 Value",
      Ok (c "metadata" ?. "custom_field_3_value" || ""));
    ("Checkout Line Item Summary",
      Ok (c "metadata" ?. "line_item_summary" || ""));
    ("Checkout Promotional Consent",
      Ok (c "metadata" ?. "promotional_consent" || ""));
    ("Checkout Terms of Service Consent",
      Ok (c "metadata" ?. "tos_consent" || ""));
    ("Client Reference ID", Ok (c "client_reference_id" || ""));
    ("Payment Link ID", Ok (c "payment_link" || ""));
    ("UTM Campaign", Ok (c "metadata" ?. "utm_campaign" || ""));
    ("UTM Content", Ok (c "metadata" ?. "utm_content" || ""));
    ("UTM Medium", Ok (c "metadata" ?. "utm_medium" || ""));
    ("UTM Source", Ok (c "metadata" ?. "utm_source" || ""));
    ("UTM Term", Ok (c "metadata" ?. "utm_term" || ""));
    ("Terminal Location ID", Ok (c "terminal_location" || ""));
    ("Terminal Reader ID", Ok (c "terminal_reader" || ""));
    ("Application Fee",
      Ok (div rt (c "application_fee_amount") hundred || ""));
    ("Application ID", Ok (c "application" || ""));
    ("Destination", Ok (c "destination" || ""));
    ("Transfer", Ok (c "transfer" || ""));
    ("Transfer Group", Ok (c "transfer_group" || ""));
    ("Fund", Ok (c "metadata" ?. "Product Names" || "")) ].

Definition mapCharge : result FlatRecord := object_literal mapCharge_inits.

End MapCharge.

(** [charges.map((charge) => ({ ... }))] *)
Fixpoint mapTransactionData (rt : Runtime) (charges : list Charge)
    : result (list FlatRecord) :=
  match charges with
  | [] => Ok []
  | charge :: rest =>
      o <- mapCharge rt charge ;;
      os <- mapTransactionData rt rest ;;
      Ok (o :: os)
  end.

(** *** What the object literal needs, and the columns it fills *)

(** The initialiser of a field of an object literal. *)
Fixpoint initialiser {A : Type} (inits : list (string * A)) (k : string)
    : option A :=
  match inits with
  | [] => None
  | (k', init) :: rest =>
      if String.eqb k k' then Some init else initialiser rest k
  end.

(** [seconds * 1000] is the time value of a valid date. *)
Definition valid_time (rt : Runtime) (seconds : value) : Prop :=
  exists t, Date.TimeClip (mul rt seconds 1000%float) = Some t.

(** The fields [mapTransactionData] reads without a guard: [created] is a
    time, [currency] a string and, if [refunded] is set, [refunds.data]
    starts with a refund that has a [created] time. *)
Definition required_fields (rt : Runtime) (charge : Charge) : Prop :=
  valid_time rt (prop charge "created")
  /\ (exists s, prop charge "currency" = VStr s)
  /\ (truthy (prop charge "refunded") = true ->
      exists refunds_data refund created,
        get (prop charge "refunds") "data" = Ok refunds_data
        /\ index0 refunds_data = Ok refund
        /\ get refund "created" = Ok created
        /\ valid_time rt created).

Definition card_columns : list string :=
  [ "Card ID"; "Card Name"; "Card Address Line1"; "Card Address Line2";
    "Card Address City"; "Card Address State"; "Card Address Country";
    "Card Address Zip"; "Card AVS Line1 Status"; "Card AVS Zip Status";
    "Card Brand"; "Card CVC Status"; "Card Exp Month"; "Card Exp Year";
    "Card Fingerprint"; "Card Funding"; "Card Issue Country"; "Card Last4";
    "Card Tokenization Method" ].

Definition payment_method_columns : list string :=
  "Link Funding" :: "Payment Source Type" :: card_columns.

Definition shipping_columns : list string :=
  [ "Shipping Name"; "Shipping Address Line1"; "Shipping Address Line2";
    "Shipping Address City"; "Shipping Address State";
    "Shipping Address Country"; "Shipping Address Postal Code" ].

Definition dispute_columns : list string :=
  [ "Disputed Amount"; "Dispute Reason"; "Dispute Status" ].

Definition metadata_columns : list string :=
  [ "Checkout Custom Field 1 Key"; "Checkout Custom Field 1 Value";
    "Checkout Custom Field 2 Key"; "Checkout Custom Field 2 Value";
    "Checkout Custom Field 3 Key"; "Checkout Custom Field 3 Value";
    "Checkout Line Item Summary"; "Checkout Promotional Consent";
    "Checkout Terms of Service Consent"; "UTM Campaign"; "UTM Content";
    "UTM Medium"; "UTM Source"; "UTM Term"; "Fund" ].

Definition balance_transaction_columns : list string :=
  [ "Fee"; "Taxes On Fee" ].

(** The values [mapTransactionData] does arithmetic on: the operands of
    its seven divisions by 100 and two multiplications by 1000. *)
Definition arithmetic_operands (charge : Charge) : list value :=
  [ prop charge "created";
    prop charge "amount";
    prop charge "amount_refunded";
    prop charge "amount_captured";
    prop charge "amount_refunded";
    oget (prop charge "balance_transaction") "fee";
    match index0 (oget (prop charge "refunds") "data") with
    | Ok refund => oget refund "created"
    | Throw _ => VUndefined
    end;
    oget (prop charge "dispute") "amount";
    prop charge "application_fee_amount" ].

(** The amounts read without a guard: source field and column. *)
Definition plain_amounts : list (string * string) :=
  [ ("amount", "Amount");
    ("amount_refunded", "Amount Refunded");
    ("amount_captured", "Converted Amount");
    ("amount_refunded", "Converted Amount Refunded") ].

(** The amounts read from a sub-object, behind a test of the sub-object:
    sub-object, field and column. *)
Definition nested_amounts : list (string * string * string) :=
  [ ("balance_transaction", "fee", "Fee");
    ("dispute", "amount", "Disputed Amount") ].

(** The columns of [o] named in [columns] all hold the empty string. *)
Definition blank (o : FlatRecord) (columns : list string) : Prop :=
  Forall (fun k => prop o k = VStr "") columns.

(** The keys of the object literal, in its order. *)
Definition columns : list string :=
  [ "ID"; "Created date (UTC)"; "Amount"; "Amount Refunded"; "Currency";
    "Captured"; "Converted Amount"; "Converted Amount Refunded";
    "Converted Currency"; "Decline Reason"; "Description"; "Fee";
    "Is Link"; "Link Funding"; "Mode"; "PaymentIntent ID";
    "Payment Source Type"; "Refunded date (UTC)"; "Statement Descriptor";
    "Status"; "Seller Message"; "Taxes On Fee"; "Card ID"; "Card Name";
    "Card Address Line1"; "Card Address Line2"; "Card Address City";
    "Card Address State"; "Card Address Country"; "Card Address Zip";
    "Card AVS Line1 Status"; "Card AVS Zip Status"; "Card Brand";
    "Card CVC Status"; "Card Exp Month"; "Card Exp Year";
    "Card Fingerprint"; "Card Funding"; "Card Issue Country"; "Card Last4";
    "Card Tokenization Method"; "Customer ID"; "Customer Description";
    "Customer Email"; "Customer Phone"; "Shipping Name";
    "Shipping Address Line1"; "Shipping Address Line2";
    "Shipping Address City"; "Shipping Address State";
    "Shipping Address Country"; "Shipping Address Postal Code";
    "Disputed Amount"; "Dispute Reason"; "Dispute Status"; "Invoice ID";
    "Invoice Number"; "Checkout Session ID"; "Checkout Custom Field 1 Key";
    "Checkout Custom Field 1 Value"; "Checkout Custom Field 2 Key";
    "Checkout Custom Field 2 Value"; "Checkout Custom Field 3 Key";
    "Checkout Custom Field 3 Value"; "Checkout Line Item Summary";
    "Checkout Promotional Consent"; "Checkout Terms of Service Consent";
    "Client Reference ID"; "Payment Link ID"; "UTM Campaign";
    "UTM Content"; "UTM Medium"; "UTM Source"; "UTM Term";
    "Terminal Location ID"; "Terminal Reader ID"; "Application Fee";
    "Application ID"; "Destination"; "Transfer"; "Transfer Group";
    "Fund" ].

(** The columns whose initialiser ends in [|| ""]. *)
Definition defaulted_columns : list string :=
  [ "Decline Reason"; "Description"; "Link Funding"; "PaymentIntent ID";
    "Payment Source Type"; "Statement Descriptor"; "Seller Message";
    "Taxes On Fee"; "Card ID"; "Card Name"; "Card Address Line1";
    "Card Address Line2"; "Card Address City"; "Card Address State";
    "Card Address Country"; "Card Address Zip"; "Card AVS Line1 Status";
    "Card AVS Zip Status"; "Card Brand"; "Card CVC Status";
    "Card Exp Month"; "Card Exp Year"; "Card Fingerprint"; "Card Funding";
    "Card Issue Country"; "Card Last4"; "Card Tokenization Method";
    "Customer ID"; "Customer Email"; "Customer Phone"; "Shipping Name";
    "Shipping Address Line1"; "Shipping Address Line2";
    "Shipping Address City"; "Shipping Address State";
    "Shipping Address Country"; "Shipping Address Postal Code";
    "Invoice ID"; "Checkout Session ID"; "Checkout Custom Field 1 Key";
    "Checkout Custom Field 1 Value"; "Checkout Custom Field 2 Key";
    "Checkout Custom Field 2 Value"; "Checkout Custom Field 3 Key";
    "Checkout Custom Field 3 Value"; "Checkout Line Item Summary";
    "Checkout Promotional Consent"; "Checkout Terms of Service Consent";
    "Client Reference ID"; "Payment Link ID"; "UTM Campaign";
    "UTM Content"; "UTM Medium"; "UTM Source"; "UTM Term";
    "Terminal Location ID"; "Terminal Reader ID"; "Application Fee";
    "Application ID"; "Destination"; "Transfer"; "Transfer Group";
    "Fund" ].

(** ** The request handlers *)

(** [req]: the parsed query string. *)
Record Request : Type := {
  query : list (string * value)
}.

(** What a handler writes on [res]. *)
Inductive body : Type :=
| JsonError (message : string)
| JsonList (response : Page)
| Text (content : string).

Record Response : Type := {
  status_code : Z;
  payload : body
}.

(** [res.status(code).json({ error: message })] *)
Definition error_response (code : Z) (message : string) : Response :=
  {| status_code := code; payload := JsonError message |}.

(** [transactions(req, res)]: the requests sent to Stripe and the response
    written.  The whole body is inside [try]: whatever is thrown there,
    by the conversion of [page], by [new Date] or by the call, is
    answered with status 500. *)
Definition transactions (rt : Runtime) (req : Request) (stripe : Source)
    : list Params * completion Response :=
  let caught :=
    Returned
      (error_response 500 "An error occurred while fetching transactions") in
  let startDate := prop (query req) "startDate" in
  let endDate := prop (query req) "endDate" in
  let page := prop (query req) "page" in
  let lastTransactionId := prop (query req) "lastTransactionId" in
  match parseInt rt page with
  | Throw error => ([], caught)
  | Ok parsed =>
  let page := or (VNum parsed) (VNum 1%float) in
  if negb (truthy startDate) then
    ([], Returned (error_response 400 "startDate is required"))
  else if negb (truthy endDate) then
    ([], Returned (error_response 400 "endDate is required"))
  else
    match new_Date rt startDate with
    | Throw error => ([], caught)
    | Ok start =>
    match new_Date rt endDate with
    | Throw error => ([], caught)
    | Ok end_ =>
    match start, end_ with
    | Some start, Some end_ =>
        if end_ <? start then
          ([], Returned
                 (error_response 400
                    "endDate must be greater than or equal to startDate"))
        else
          let startUTC := Date.epochSeconds start in
          let endUTC := Date.epochSeconds end_ in
          let params :=
            {| created_gte := startUTC;
               created_lte := endUTC;
               limit := 10000;
               status := "succeeded";
               starting_after := None |} in
          match stripe with
          | [] => ([params], Pending)
          | list :: _ =>
              match list params with
              | Resolve response =>
                  ([params],
                   Returned
                     {| status_code := 200; payload := JsonList response |})
              | Reject error => ([params], caught)
              end
          end
    | _, _ => ([], Returned (error_response 400 "Both dates must be valid."))
    end
    end
    end
  end.

(** [Object.keys(rows[0])]: a [TypeError] when there is no first row. *)
Definition Object_keys_first (rows : list FlatRecord) : result (list string) :=
  match rows with
  | [] => Throw TypeError
  | first :: _ => Ok (map fst first)
  end.

(** [exportTransactionsToCSV(req, res)].  Nothing here is inside a [try]:
    an exception ends the handler without a response. *)
Definition exportTransactionsToCSV (rt : Runtime) (req : Request)
    (stripe : Source) : list Params * completion Response :=
  let startDate := prop (query req) "startDate" in
  let endDate := prop (query req) "endDate" in
  if negb (truthy startDate) then
    ([], Returned (error_response 400 "startDate is required"))
  else if negb (truthy endDate) then
    ([], Returned (error_response 400 "endDate is required"))
  else
    match new_Date rt startDate with
    | Throw e => ([], Threw e)
    | Ok start =>
    match new_Date rt endDate with
    | Throw e => ([], Threw e)
    | Ok end_ =>
    match start, end_ with
    | Some start, Some end_ =>
        if end_ <? start then
          ([], Returned
                 (error_response 400
                    "endDate must be greater than or equal to startDate"))
        else
          let startUTC := Date.epochSeconds start in
          let endUTC := Date.epochSeconds end_ in
          let '(requests, fetched) :=
            fetchTransactions startUTC endUTC stripe in
          (requests,
           match fetched with
           | Returned transactions =>
               match
                 mappedData <- mapTransactionData rt transactions ;;
                 fields <- Object_keys_first mappedData ;;
                 json2csv_parse rt fields mappedData
               with
               | Ok csv =>
                   Returned {| status_code := 200; payload := Text csv |}
               | Throw e => Threw e
               end
           | Threw e => Threw e
           | Pending => Pending
           end)
    | _, _ => ([], Returned (error_response 400 "Both dates must be valid."))
    end
    end
    end.

(** ** A runtime for the examples

    It agrees with ECMAScript on what the examples give it: the case of
    ASCII strings, calendar dates written [YYYY-MM-DD], the number a
    string of decimal digits denotes.  What it does elsewhere (a date
    that is not in the calendar, a number with a sign, a fraction or
    spaces, the text of a number other than a small whole number) is an
    arbitrary choice: it serves to run the definitions, and no general
    statement is about it. *)

Module Sample.

Definition is_digit (ch : ascii) : bool :=
  let n := nat_of_ascii ch in ((48 <=? n) && (n <=? 57))%nat.

(** The number a string of decimal digits denotes. *)
Fixpoint decimal (s : string) (acc : Z) : option Z :=
  match s with
  | EmptyString => Some acc
  | String ch rest =>
      if is_digit ch
      then decimal rest (10 * acc + Z.of_nat (nat_of_ascii ch - 48))
      else None
  end.

(** The leading decimal digits of a string. *)
Fixpoint leading_digits (s : string) : string :=
  match s with
  | EmptyString => EmptyString
  | String ch rest =>
      if is_digit ch then String ch (leading_digits rest) else EmptyString
  end.

Definition of_Z (z : Z) : float :=
  if z <? 2 ^ 53 then PrimFloat.of_uint63 (Uint63.of_Z z) else NaN.

Definition string_to_number (s : string) : float :=
  match decimal s 0 with
  | Some z => of_Z z
  | None => NaN
  end.

Definition parse_int (s : string) : float :=
  match leading_digits s with
  | EmptyString => NaN
  | ds => string_to_number ds
  end.

Definition upper (ch : ascii) : ascii :=
  let n := nat_of_ascii ch in
  if ((97 <=? n) && (n <=? 122))%nat then ascii_of_nat (n - 32) else ch.

Fixpoint to_upper (s : string) : string :=
  match s with
  | EmptyString => EmptyString
  | String ch rest => String (upper ch) (to_upper rest)
  end.

Definition date_parse (s : string) : option Z :=
  match decimal (substring 0 4 s) 0, decimal (substring 5 2 s) 0,
        decimal (substring 8 2 s) 0 with
  | Some y, Some m, Some d =>
      let day := Date.days_from_civil y m d in
      if String.eqb s (Date.digits 4 y "-" ++ Date.digits 2 m "-"
                         ++ Date.digits 2 d "")
         && (let '(y', m', d') := Date.civil_from_days day in
             (y' =? y) && (m' =? m) && (d' =? d))
      then Some (day * Date.msPerDay)
      else None
  | _, _, _ => None
  end.

Fixpoint to_string (v : value) : string :=
  match v with
  | VUndefined => "undefined"
  | VNull => "null"
  | VBool b => if b then "true" else "false"
  | VNum x =>
      match Date.truncate x with
      | Some z =>
          if PrimFloat.eqb x (of_Z z)
          then NilZero.string_of_int (Z.to_int z)
          else "NaN"
      | None => "NaN"
      end
  | VStr s => s
  | VArr items =>
      String.concat ","
        (map (fun item => if nullish item then "" else to_string item) items)
  | VObj _ => "[object Object]"
  end.

(** Header line and one line per row, cells separated by commas. *)
Definition csv (fields : list string) (rows : list FlatRecord)
    : result string :=
  let newline := String (ascii_of_nat 10) EmptyString in
  let line (row : FlatRecord) :=
    String.concat "," (map (fun k => to_string (prop row k)) fields) in
  Ok (String.concat newline (String.concat "," fields :: map line rows)).

Definition runtime : Runtime :=
  {| ToString := to_string;
     StringToNumber := string_to_number;
     Date_parse := date_parse;
     parseInt_string := parse_int;
     toUpperCase := to_upper;
     json2csv_parse := csv |}.

End Sample.

(** ** Sample data *)

Module Data.

Definition charge (id status : string) : Charge :=
  [ ("id", VStr id);
    ("created", VNum 1704067200%float);
    ("amount", VNum 1250%float);
    ("amount_refunded", VNum 0%float);
    ("amount_captured", VNum 1250%float);
    ("currency", VStr "usd");
    ("status", VStr status) ].

Definition page (records : list Charge) (more : bool) : Page :=
  {| data := records; has_more := more |}.

Definition january : Request :=
  {| query := [ ("startDate", VStr "2024-01-01");
                ("endDate", VStr "2024-02-01") ] |}.

Definition january_page_1 : Request :=
  {| query := [ ("startDate", VStr "2024-01-01");
                ("endDate", VStr "2024-02-01");
                ("page", VStr "1") ] |}.

Definition january_page_7 : Request :=
  {| query := [ ("startDate", VStr "2024-01-01");
                ("endDate", VStr "2024-02-01");
                ("page", VStr "7");
                ("lastTransactionId", VStr "ch_9") ] |}.

(** [startDate=2024-02-01&endDate=2024-01-01] *)
Definition inverted : Request :=
  {| query := [ ("startDate", VStr "2024-02-01");
                ("endDate", VStr "2024-01-01") ] |}.

Definition no_startDate : Request :=
  {| query := [ ("endDate", VStr "2024-01-01") ] |}.

(** [page[toString]=1]: an object that cannot be converted to a string. *)
Definition page_object : value := VObj [ ("toString", VStr "1") ].

Definition january_page_object : Request :=
  {| query := [ ("startDate", VStr "2024-01-01");
                ("endDate", VStr "2024-02-01");
                ("page", page_object) ] |}.

Definition no_startDate_page_object : Request :=
  {| query := [ ("endDate", VStr "2024-01-01"); ("page", page_object) ] |}.

Definition inverted_page_object : Request :=
  {| query := [ ("startDate", VStr "2024-02-01");
                ("endDate", VStr "2024-01-01");
                ("page", page_object) ] |}.

(** [startDate=&endDate=2024-01-01] *)
Definition empty_startDate : Request :=
  {| query := [ ("startDate", VStr ""); ("endDate", VStr "2024-01-01") ] |}.

Definition no_endDate : Request :=
  {| query := [ ("startDate", VStr "2024-01-01") ] |}.

Definition unparsable_endDate : Request :=
  {| query := [ ("startDate", VStr "2024-01-01");
                ("endDate", VStr "yesterday") ] |}.

(** A client whose call fails. *)
Definition failing : Source :=
  [ fun _ => Reject (StripeError "api_connection_error") ].

(** A charge without [amount], with an application fee of zero and a
    balance transaction that has no [fee]. *)
Definition odd_amounts : Charge :=
  [ ("id", VStr "ch_5");
    ("created", VNum 1704067200%float);
    ("currency", VStr "usd");
    ("status", VStr "succeeded");
    ("application_fee_amount", VNum 0%float);
    ("balance_transaction", VObj [ ("id", VStr "txn_5") ]) ].

(** A charge as Stripe sends it when nothing is expanded: the customer
    and the balance transaction are identifiers. *)
Definition unexpanded : Charge :=
  ("customer", VStr "cus_1")
  :: ("balance_transaction", VStr "txn_1")
  :: charge "ch_6" "succeeded".

(** A page whose last record has an empty identifier. *)
Definition nameless : list Page :=
  [ page [ charge "" "succeeded" ] true;
    page [ charge "ch_7" "succeeded" ] false ].

(** The parameters of a request of the loop. *)
Definition request (startDate endDate : Z) (cursor : option value) : Params :=
  {| created_gte := startDate;
     created_lte := endDate;
     limit := 10;
     status := "succeeded";
     starting_after := cursor |}.

(** Two pages with records of several statuses. *)
Definition mixed : list Page :=
  [ page [ charge "ch_1" "succeeded"; charge "ch_2" "failed" ] true;
    page [ charge "ch_3" "pending"; charge "ch_4" "succeeded" ] false ].

(** [n] succeeded charges, named after [prefix]. *)
Definition batch (prefix : string) (n : nat) : list Charge :=
  map (fun i => charge (prefix ++ Date.digits 2 (Z.of_nat i) "") "succeeded")
    (seq 0 n).

(** Three pages of 10, 10 and 4 records; the third is the last. *)
Definition three_pages : list Page :=
  [ page (batch "ch_a" 10) true;
    page (batch "ch_b" 10) true;
    page (batch "ch_c" 4) false ].

End Data.

(** * Properties *)

(** ** Examples *)

Example toISOString_epoch :
  Date.toISOString (Some 0) = Ok "1970-01-01T00:00:00.000Z".
Proof. reflexivity. Qed.

Example toISOString_leap_day :
  Date.toISOString (Some 951868799999) = Ok "2000-02-29T23:59:59.999Z".
Proof. reflexivity. Qed.

Example toISOString_before_epoch :
  Date.toISOString (Some (-1)) = Ok "1969-12-31T23:59:59.999Z".
Proof. reflexivity. Qed.

Example toISOString_last_day :
  Date.toISOString (Date.TimeClip 8640000000000000%float)
  = Ok "+275760-09-13T00:00:00.000Z".
Proof. vm_compute. reflexivity. Qed.

Example TimeClip_out_of_range :
  Date.TimeClip 8640000000000001%float = None.
Proof. vm_compute. reflexivity. Qed.

Example isoDate_of_seconds :
  isoDate Sample.runtime (VNum 1704067200%float)
  = Ok (VStr "2024-01-01T00:00:00.000Z").
Proof. vm_compute. reflexivity. Qed.

Example isoDate_of_undefined :
  isoDate Sample.runtime VUndefined = Throw RangeError.
Proof. vm_compute. reflexivity. Qed.

Example date_parse_end_of_month :
  Sample.date_parse "2024-01-31" = Some 1706659200000
  /\ Sample.date_parse "2024-02-29" = Some 1709164800000
  /\ Sample.date_parse "2023-02-29" = None.
Proof. repeat split; vm_compute; reflexivity. Qed.

(** [page[toString]=1] cannot be converted; [page[]=1] and [page[a]=1]
    can. *)
Example converts_query_values :
  converts (VObj [ ("toString", VStr "1") ]) = false
  /\ converts (VArr [ VStr "1"; VObj [ ("toString", VStr "1") ] ]) = false
  /\ converts (VArr [ VStr "1" ]) = true
  /\ converts (VObj [ ("a", VStr "1") ]) = true.
Proof. repeat split. Qed.

(** A charge without [currency]: [charge.currency.toUpperCase()] throws. *)
Example mapCharge_without_currency :
  mapCharge Sample.runtime
    [ ("id", VStr "ch_1"); ("created", VNum 1704067200%float) ]
  = Throw TypeError.
Proof. vm_compute. reflexivity. Qed.

(** A refunded charge whose [refunds] is absent, or has no entry. *)
Example mapCharge_refunded_without_refunds :
  mapCharge Sample.runtime
    (("refunded", VBool true) :: Data.charge "ch_1" "succeeded")
  = Throw TypeError
  /\ mapCharge Sample.runtime
       (("refunded", VBool true)
        :: ("refunds", VObj [ ("data", VArr []) ])
        :: Data.charge "ch_1" "succeeded")
     = Throw TypeError.
Proof. split; vm_compute; reflexivity. Qed.

Example transactions_january :
  transactions Sample.runtime Data.january (paged Data.mixed)
  = ([ {| created_gte := 1704067200;
          created_lte := 1706745600;
          limit := 10000;
          status := "succeeded";
          starting_after := None |} ],
     Returned {| status_code := 200;
                 payload := JsonList (Data.page
                   [ Data.charge "ch_1" "succeeded";
                     Data.charge "ch_2" "failed" ] true) |}).
Proof. vm_compute. reflexivity. Qed.

(** ** The pagination loop *)

Section Loop.

Variables startDate endDate : Z.

Local Abbreviation while := (while_hasMore startDate endDate).
Local Abbreviation params_of := (loop_params startDate endDate).

Lemma while_unfold stripe st :
  while stripe st =
  if hasMore st then
    match stripe with
    | [] => ([params_of st], Pending)
    | list :: stripe' =>
        match list (params_of st) with
        | Reject e => ([params_of st], Threw e)
        | Resolve response =>
            let '(requests, outcome) := while stripe' (loop_body response st) in
            (params_of st :: requests, outcome)
        end
    end
  else ([], Returned st).
Proof. destruct stripe; reflexivity. Qed.

Lemma while_done stripe st :
  hasMore st = false -> while stripe st = ([], Returned st).
Proof. intros H. rewrite while_unfold, H. reflexivity. Qed.

Lemma while_paged page pages st :
  hasMore st = true ->
  while (paged (page :: pages)) st =
  let '(requests, outcome) := while (paged pages) (loop_body page st) in
  (params_of st :: requests, outcome).
Proof. intros H. rewrite while_unfold, H. reflexivity. Qed.

Lemma loop_body_charges response st :
  charges (loop_body response st) = (charges st ++ data response)%list.
Proof. unfold loop_body. destruct (_ <? _)%nat; reflexivity. Qed.

Lemma loop_body_hasMore response st :
  hasMore (loop_body response st)
  = has_more response && negb (Nat.eqb (List.length (data response)) 0).
Proof.
  unfold loop_body. destruct (data response); simpl.
  - now rewrite andb_false_r.
  - now rewrite andb_true_r.
Qed.

Lemma loop_body_startingAfter response st :
  hasMore (loop_body response st) = true ->
  startingAfter (loop_body response st) = prop (last_record response) "id".
Proof.
  unfold loop_body. destruct (_ <? _)%nat; simpl; [reflexivity | discriminate].
Qed.

(** An empty page ends the loop, whatever its [has_more]. *)
Lemma loop_body_empty more st :
  hasMore (loop_body {| data := []; has_more := more |} st) = false.
Proof. rewrite loop_body_hasMore. simpl. apply andb_false_r. Qed.

Lemma loop_body_continues page st :
  continues page -> hasMore (loop_body page st) = true.
Proof.
  intros [Hne Hmore]. rewrite loop_body_hasMore, Hmore.
  destruct (data page); [contradiction | reflexivity].
Qed.

(** Running through pages that all continue: one request per page, and the
    loop goes on with the rest of the script. *)
Lemma while_through pages : forall st,
  hasMore st = true ->
  Forall continues pages ->
  exists requests st',
    (forall rest,
        while (paged (pages ++ rest)) st =
        let '(requests', outcome) := while (paged rest) st' in
        ((requests ++ requests')%list, outcome))
    /\ List.length requests = List.length pages
    /\ hasMore st' = true
    /\ charges st' = (charges st ++ List.concat (map data pages))%list.
Proof.
  induction pages as [|page pages IH]; intros st Hst Hall.
  - exists [], st. repeat split; simpl.
    + intros rest. now destruct (while (paged rest) st).
    + assumption.
    + now rewrite app_nil_r.
  - inversion Hall as [|? ? Hpage Hpages]; subst.
    destruct (IH (loop_body page st) (loop_body_continues _ _ Hpage) Hpages)
      as (requests & st' & Hrun & Hlen & Hmore & Hch).
    exists (params_of st :: requests), st'. repeat split.
    + intros rest. simpl app. rewrite while_paged, Hrun by assumption.
      now destruct (while _ st').
    + simpl. now rewrite Hlen.
    + assumption.
    + rewrite Hch, loop_body_charges. simpl. now rewrite app_assoc.
Qed.

Lemma loop_body_stops page st :
  stops page -> hasMore (loop_body page st) = false.
Proof.
  intros [Hempty|Hlast]; rewrite loop_body_hasMore.
  - rewrite Hempty. apply andb_false_r.
  - now rewrite Hlast.
Qed.

(** A script of pages with a page that stops the loop: the loop returns. *)
Lemma while_returns pages : forall st,
  Exists stops pages ->
  exists requests st', while (paged pages) st = (requests, Returned st').
Proof.
  induction pages as [|page pages IH]; intros st Hstop.
  - inversion Hstop.
  - destruct (hasMore st) eqn:Hst.
    + rewrite while_paged by assumption.
      destruct (hasMore (loop_body page st)) eqn:Hmore.
      * inversion Hstop as [? ? Hpage|? ? Hrest]; subst.
        -- rewrite (loop_body_stops _ st Hpage) in Hmore. discriminate.
        -- destruct (IH (loop_body page st) Hrest) as (requests & st' & ->).
           now eexists _, _.
      * rewrite while_done by assumption. now eexists _, _.
    + rewrite while_done by assumption. now eexists _, _.
Qed.

End Loop.

Lemma filter_all {A : Type} (f : A -> bool) (l : list A) :
  Forall (fun x => f x = true) l -> filter f l = l.
Proof.
  induction 1 as [|x l Hx _ IH]; simpl; [reflexivity|].
  now rewrite Hx, IH.
Qed.

Lemma succeeded_status charge :
  succeeded charge = true <-> prop charge "status" = VStr "succeeded".
Proof.
  unfold succeeded, strict_eq_string. split.
  - destruct (prop charge "status"); try discriminate.
    intros H. apply String.eqb_eq in H. now subst.
  - intros ->. reflexivity.
Qed.

(** C1. Whatever the source answers, every record of the sequence
    [fetchTransactions] returns has the status "succeeded": the final
    filter sees to it.  And a sequence is returned on every script of
    pages with a page that stops the loop, whatever the statuses of the
    records in the pages. *)
Theorem fetchTransactions_only_succeeded :
  forall startDate endDate,
    (forall stripe requests transactions,
        fetchTransactions startDate endDate stripe
        = (requests, Returned transactions) ->
        Forall (fun charge => prop charge "status" = VStr "succeeded")
          transactions)
    /\ (forall pages,
          Exists stops pages ->
          exists requests transactions,
            fetchTransactions startDate endDate (paged pages)
            = (requests, Returned transactions)
            /\ Forall (fun charge => prop charge "status" = VStr "succeeded")
                 transactions).
Proof.
  intros s e.
  assert (Hfilter : forall stripe requests transactions,
    fetchTransactions s e stripe = (requests, Returned transactions) ->
    Forall (fun charge => prop charge "status" = VStr "succeeded")
      transactions).
  { intros stripe requests transactions. unfold fetchTransactions.
    destruct (while_hasMore s e stripe initial) as [reqs [st|err|]];
      intros H; inversion H; subst.
    apply Forall_forall. intros charge Hin.
    apply filter_In in Hin as [_ Hs]. now apply succeeded_status. }
  split; [exact Hfilter|].
  intros pages Hstop.
  destruct (while_returns s e pages initial Hstop) as (requests & st' & Hrun).
  assert (Hfetch : fetchTransactions s e (paged pages)
                   = (requests, Returned (filter succeeded (charges st')))).
  { unfold fetchTransactions. now rewrite Hrun. }
  eexists _, _. split; [exact Hfetch|]. exact (Hfilter _ _ _ Hfetch).
Qed.

Lemma fetchTransactions_only_succeeded_witness :
  fetchTransactions 0 1 (paged Data.mixed)
  = ([ Data.request 0 1 None; Data.request 0 1 (Some (VStr "ch_2")) ],
     Returned [ Data.charge "ch_1" "succeeded"; Data.charge "ch_4" "succeeded" ])
  /\ Forall (fun charge => prop charge "status" = VStr "succeeded")
       [ Data.charge "ch_1" "succeeded"; Data.charge "ch_4" "succeeded" ].
Proof.
  assert (H : fetchTransactions 0 1 (paged Data.mixed)
              = ([ Data.request 0 1 None;
                   Data.request 0 1 (Some (VStr "ch_2")) ],
                 Returned [ Data.charge "ch_1" "succeeded";
                            Data.charge "ch_4" "succeeded" ]))
    by reflexivity.
  split; [exact H|].
  exact (proj1 (fetchTransactions_only_succeeded 0 1) _ _ _ H).
Defined.

(** C2. A script with an empty page: the loop returns, and sends no
    request after the one the empty page answers, even if that page says
    [has_more]; when every page before it continues, the empty page is
    reached and is the last one asked for. *)
Theorem fetchTransactions_stops_at_empty_page :
  forall startDate endDate before more after,
    let stripe :=
      paged (before ++ {| data := []; has_more := more |} :: after) in
    exists requests transactions,
      fetchTransactions startDate endDate stripe
      = (requests, Returned transactions)
      /\ (List.length requests <= List.length before + 1)%nat
      /\ (Forall continues before ->
          List.length requests = (List.length before + 1)%nat
          /\ transactions = filter succeeded (List.concat (map data before))).
Proof.
  intros s e before more after stripe. subst stripe.
  unfold fetchTransactions.
  set (empty := {| data := []; has_more := more |}).
  assert (Hgen : forall st,
    exists requests st',
      while_hasMore s e (paged (before ++ empty :: after)) st
      = (requests, Returned st')
      /\ (List.length requests <= List.length before + 1)%nat
      /\ (hasMore st = true -> Forall continues before ->
          List.length requests = (List.length before + 1)%nat
          /\ charges st' = (charges st ++ List.concat (map data before))%list)).
  { induction before as [|page before IH]; intros st.
    - simpl app. destruct (hasMore st) eqn:Hst.
      + rewrite while_paged by assumption.
        rewrite while_done by apply loop_body_empty.
        eexists _, _. split; [reflexivity|]. split; [simpl; lia|].
        intros _ _. split; [reflexivity|].
        rewrite loop_body_charges. reflexivity.
      + rewrite while_done by assumption.
        eexists _, _. split; [reflexivity|]. split; [simpl; lia|].
        discriminate.
    - simpl app. destruct (hasMore st) eqn:Hst.
      + rewrite while_paged by assumption.
        destruct (IH (loop_body page st)) as (requests & st' & Hrun & Hle & Hex).
        rewrite Hrun. eexists _, _. split; [reflexivity|].
        split; [simpl; lia|].
        intros _ Hall. inversion Hall as [|? ? Hpage Hpages]; subst.
        destruct (Hex (loop_body_continues _ _ Hpage) Hpages) as [Hlen Hch].
        split; [simpl; lia|].
        rewrite Hch, loop_body_charges. simpl. now rewrite app_assoc.
      + rewrite while_done by assumption.
        eexists _, _. split; [reflexivity|]. split; [simpl; lia|].
        discriminate. }
  destruct (Hgen initial) as (requests & st' & Hrun & Hle & Hex).
  rewrite Hrun. eexists _, _. split; [reflexivity|]. split; [assumption|].
  intros Hall. destruct (Hex eq_refl Hall) as [Hlen Hch].
  split; [assumption|]. now rewrite Hch.
Qed.

Lemma fetchTransactions_stops_at_empty_page_witness :
  exists requests,
    fetchTransactions 0 1
      (paged ([ Data.page [ Data.charge "ch_1" "succeeded" ] true ]
                ++ {| data := []; has_more := true |}
                :: [ Data.page [ Data.charge "ch_2" "succeeded" ] true ]))
    = (requests, Returned [ Data.charge "ch_1" "succeeded" ])
    /\ List.length requests = 2%nat.
Proof.
  destruct (fetchTransactions_stops_at_empty_page 0 1
              [ Data.page [ Data.charge "ch_1" "succeeded" ] true ] true
              [ Data.page [ Data.charge "ch_2" "succeeded" ] true ])
    as (requests & transactions & Hrun & _ & Hexact).
  destruct Hexact as [Hlen ->].
  - repeat constructor. discriminate.
  - exists requests. split; [exact Hrun | exact Hlen].
Defined.

(** C3. A script of pages that all continue, followed by a page without
    [has_more], all of whose records have the status "succeeded": the
    loop asks for every page, returns, and returns the records of all the
    pages in order, so as many as the pages hold together. *)
Theorem fetchTransactions_collects_all_pages :
  forall startDate endDate pages final,
    Forall continues pages ->
    has_more final = false ->
    Forall (fun page => Forall (fun charge => succeeded charge = true)
                          (data page)) (pages ++ [final]) ->
    exists requests transactions,
      fetchTransactions startDate endDate (paged (pages ++ [final]))
      = (requests, Returned transactions)
      /\ List.length requests = List.length (pages ++ [final])
      /\ transactions = List.concat (map data (pages ++ [final]))
      /\ List.length transactions = record_count (pages ++ [final]).
Proof.
  intros s e pages final Hcont Hlast Hsucc.
  destruct (while_through s e pages initial eq_refl Hcont)
    as (requests & st' & Hrun & Hlen & Hmore & Hch).
  unfold fetchTransactions. rewrite (Hrun [final]).
  rewrite while_paged by assumption.
  rewrite while_done
    by (rewrite loop_body_hasMore, Hlast; reflexivity).
  assert (Hall : charges (loop_body final st')
                 = List.concat (map data (pages ++ [final]))).
  { rewrite loop_body_charges, Hch. simpl.
    rewrite map_app, concat_app. simpl. now rewrite app_nil_r. }
  assert (Hfilter : filter succeeded (charges (loop_body final st'))
                    = List.concat (map data (pages ++ [final]))).
  { rewrite Hall. apply filter_all.
    apply Forall_concat. apply Forall_map. exact Hsucc. }
  eexists _, _. split; [reflexivity|]. rewrite Hfilter.
  repeat split.
  - rewrite !length_app, Hlen. reflexivity.
  - unfold record_count. clear.
    induction (pages ++ [final])%list as [|page rest IH]; simpl;
      [reflexivity|].
    now rewrite length_app, IH.
Qed.

Lemma fetchTransactions_collects_all_pages_witness :
  map (fun page => List.length (data page)) Data.three_pages = [10; 10; 4]%nat
  /\ exists requests transactions,
       fetchTransactions 0 1 (paged Data.three_pages)
       = (requests, Returned transactions)
       /\ List.length requests = 3%nat
       /\ List.length transactions = 24%nat.
Proof.
  split; [reflexivity|].
  destruct (fetchTransactions_collects_all_pages 0 1
              [ Data.page (Data.batch "ch_a" 10) true;
                Data.page (Data.batch "ch_b" 10) true ]
              (Data.page (Data.batch "ch_c" 4) false))
    as (requests & transactions & Hrun & Hreq & _ & Hlen).
  - repeat constructor; discriminate.
  - reflexivity.
  - repeat constructor.
  - exists requests, transactions. repeat split; assumption.
Defined.

(** The requests of the loop: the first is built from the state the loop
    starts in, and the one after an answered request carries the
    identifier of the last record of that answer, when that identifier is
    a value the test [if (startingAfter)] lets through. *)
Lemma while_trace startDate endDate : forall stripe st requests outcome,
  while_hasMore startDate endDate stripe st = (requests, outcome) ->
  (hasMore st = true ->
   exists rest, requests = loop_params startDate endDate st :: rest)
  /\ (forall i list params page next,
        nth_error stripe i = Some list ->
        nth_error requests i = Some params ->
        list params = Resolve page ->
        nth_error requests (S i) = Some next ->
        data page <> []
        /\ starting_after next =
           if truthy (prop (last_record page) "id")
           then Some (prop (last_record page) "id") else None).
Proof.
  induction stripe as [|list0 stripe IH]; intros st requests outcome;
    rewrite while_unfold; destruct (hasMore st) eqn:Hst.
  - intros H; inversion H; subst. split; [eauto|].
    intros [|i] ? ? ? ? Hl; discriminate Hl.
  - intros H; inversion H; subst. split; [discriminate|].
    intros [|i] ? ? ? ? Hl; discriminate Hl.
  - destruct (list0 (loop_params startDate endDate st)) as [response|err]
      eqn:Hanswer.
    + destruct (while_hasMore startDate endDate stripe (loop_body response st))
        as [requests' outcome'] eqn:Hrun.
      intros H; inversion H; subst. split; [eauto|].
      destruct (IH _ _ _ Hrun) as [Hfirst Hnext].
      intros [|i] list params page next Hl Hp Hpage Hn; simpl in *.
      * inversion Hl; inversion Hp; subst. rewrite Hanswer in Hpage.
        inversion Hpage; subst.
        destruct (hasMore (loop_body page st)) eqn:Hmore.
        -- destruct (Hfirst eq_refl) as [rest ->]. simpl in Hn.
           inversion Hn; subst. unfold loop_params at 1. simpl.
           rewrite (loop_body_startingAfter _ _ Hmore). split; [|reflexivity].
           rewrite loop_body_hasMore in Hmore.
           intros Hnil. rewrite Hnil in Hmore. simpl in Hmore.
           now rewrite andb_false_r in Hmore.
        -- rewrite while_done in Hrun by assumption.
           inversion Hrun; subst. discriminate Hn.
      * eapply Hnext; eassumption.
    + intros H; inversion H; subst. split; [eauto|].
      intros [|i] ? ? ? ? _ Hp _ Hn; simpl in *; [discriminate Hn|].
      destruct i; discriminate Hp.
  - intros H; inversion H; subst. split; [discriminate|].
    intros i ? ? ? ? _ Hp. destruct i; discriminate Hp.
Qed.

(** C9. [fetchTransactions] sends its first request without
    [starting_after]; and when the records the source returns carry an
    identifier, every later request has for [starting_after] the
    identifier of the last record of the page the request before it was
    answered with. *)
Theorem fetchTransactions_cursor :
  forall startDate endDate stripe requests outcome,
    (forall list params page,
        In list stripe -> list params = Resolve page ->
        Forall (fun charge => truthy (prop charge "id") = true) (data page)) ->
    fetchTransactions startDate endDate stripe = (requests, outcome) ->
    (exists first rest,
        requests = first :: rest /\ starting_after first = None)
    /\ (forall i list params page next,
          nth_error stripe i = Some list ->
          nth_error requests i = Some params ->
          list params = Resolve page ->
          nth_error requests (S i) = Some next ->
          starting_after next = Some (prop (last_record page) "id")).
Proof.
  intros s e stripe requests outcome Hids. unfold fetchTransactions.
  destruct (while_hasMore s e stripe initial) as [requests' outcome'] eqn:Hrun.
  intros H; inversion H; subst. clear H.
  destruct (while_trace _ _ _ _ _ _ Hrun) as [Hfirst Hnext]. split.
  - destruct (Hfirst eq_refl) as [rest ->]. eexists _, _.
    split; reflexivity.
  - intros i list params page next Hl Hp Hpage Hn.
    destruct (Hnext _ _ _ _ _ Hl Hp Hpage Hn) as [Hne ->].
    assert (Hid : truthy (prop (last_record page) "id") = true).
    { pose proof (Hids _ _ _ (nth_error_In _ _ Hl) Hpage) as Hall.
      rewrite Forall_forall in Hall. apply Hall.
      unfold last_record. apply nth_In.
      destruct (data page); [contradiction | simpl; lia]. }
    now rewrite Hid.
Qed.

Lemma fetchTransactions_cursor_witness :
  let stripe := paged Data.mixed in
  let requests :=
    [ Data.request 0 1 None; Data.request 0 1 (Some (VStr "ch_2")) ] in
  fst (fetchTransactions 0 1 stripe) = requests
  /\ (exists first rest,
         requests = first :: rest /\ starting_after first = None)
  /\ (forall i list params page next,
         nth_error stripe i = Some list ->
         nth_error requests i = Some params ->
         list params = Resolve page ->
         nth_error requests (S i) = Some next ->
         starting_after next = Some (prop (last_record page) "id")).
Proof.
  intros stripe requests. split; [reflexivity|].
  apply (fetchTransactions_cursor 0 1 stripe requests
           (snd (fetchTransactions 0 1 stripe))).
  - intros list params page Hin Hpage. simpl in Hin.
    destruct Hin as [<-|[<-|[]]]; inversion Hpage; subst;
      repeat constructor.
  - reflexivity.
Defined.

(** ** The request handlers *)

Lemma key_neq_page : "startDate" <> "page" /\ "endDate" <> "page".
Proof. split; discriminate. Qed.

Lemma key_neq_lastTransactionId :
  "startDate" <> "lastTransactionId" /\ "endDate" <> "lastTransactionId".
Proof. split; discriminate. Qed.

Lemma parseInt_converts rt v :
  converts v = true -> parseInt rt v = Ok (parseInt_string rt (toString rt v)).
Proof. intros H. unfold parseInt, convert. now rewrite H. Qed.

Lemma parseInt_throws rt v :
  converts v = false -> parseInt rt v = Throw TypeError.
Proof. intros H. unfold parseInt, convert. now rewrite H. Qed.

(** C10, as the code has it.  Two requests to [transactions] that differ
    at most in [page] and [lastTransactionId], and whose [page] can be
    converted to a string, send the same parameters to Stripe and get the
    same response, and no request the handler sends has
    [starting_after].  On a range that passes the checks the handler
    does send a request, one, without cursor and for 10000 records, and
    answers with what the source answers to it: the first page. *)
Theorem transactions_ignores_page :
  forall rt req1 req2 stripe,
    (forall k, k <> "page" -> k <> "lastTransactionId" ->
               prop (query req1) k = prop (query req2) k) ->
    converts (prop (query req1) "page") = true ->
    converts (prop (query req2) "page") = true ->
    transactions rt req1 stripe = transactions rt req2 stripe
    /\ Forall (fun params => starting_after params = None)
         (fst (transactions rt req1 stripe))
    /\ (forall start end_ list rest,
          truthy (prop (query req1) "startDate") = true ->
          truthy (prop (query req1) "endDate") = true ->
          new_Date rt (prop (query req1) "startDate") = Ok (Some start) ->
          new_Date rt (prop (query req1) "endDate") = Ok (Some end_) ->
          start <= end_ ->
          stripe = list :: rest ->
          let params :=
            {| created_gte := start / 1000;
               created_lte := end_ / 1000;
               limit := 10000;
               status := "succeeded";
               starting_after := None |} in
          fst (transactions rt req1 stripe) = [params]
          /\ snd (transactions rt req1 stripe)
             = match list params with
               | Resolve response =>
                   Returned
                     {| status_code := 200; payload := JsonList response |}
               | Reject _ =>
                   Returned
                     (error_response 500
                        "An error occurred while fetching transactions")
               end).
Proof.
  intros rt req1 req2 stripe Hsame Hpage1 Hpage2.
  pose proof (Hsame "startDate" (proj1 key_neq_page)
                (proj1 key_neq_lastTransactionId)) as Hstart.
  pose proof (Hsame "endDate" (proj2 key_neq_page)
                (proj2 key_neq_lastTransactionId)) as Hend.
  split; [|split].
  - unfold transactions.
    rewrite (parseInt_converts _ _ Hpage1), (parseInt_converts _ _ Hpage2).
    rewrite Hstart, Hend. reflexivity.
  - unfold transactions. rewrite (parseInt_converts _ _ Hpage1).
    destruct (truthy (prop (query req1) "startDate")); simpl; [|constructor].
    destruct (truthy (prop (query req1) "endDate")); simpl; [|constructor].
    destruct (new_Date rt (prop (query req1) "startDate")) as [[start|]|];
      try constructor;
      destruct (new_Date rt (prop (query req1) "endDate")) as [[end_|]|];
      try constructor.
    destruct (end_ <? start); [constructor|].
    destruct stripe as [|list rest]; [repeat constructor|].
    destruct (list _); repeat constructor.
  - intros start end_ list rest Hs He Hnew_start Hnew_end Hle Hstripe params.
    subst stripe. unfold transactions.
    rewrite (parseInt_converts _ _ Hpage1), Hs, He, Hnew_start, Hnew_end.
    destruct (Z.ltb_spec end_ start); [lia|].
    simpl. unfold Date.epochSeconds. fold params.
    destruct (list params); split; reflexivity.
Qed.

Lemma transactions_ignores_page_witness :
  transactions Sample.runtime Data.january_page_1 (paged Data.mixed)
  = transactions Sample.runtime Data.january_page_7 (paged Data.mixed)
  /\ Forall (fun params => starting_after params = None)
       (fst (transactions Sample.runtime Data.january_page_1
               (paged Data.mixed)))
  /\ fst (transactions Sample.runtime Data.january_page_1 (paged Data.mixed))
     = [ {| created_gte := 1704067200;
            created_lte := 1706745600;
            limit := 10000;
            status := "succeeded";
            starting_after := None |} ].
Proof.
  destruct (transactions_ignores_page Sample.runtime Data.january_page_1
              Data.january_page_7 (paged Data.mixed))
    as (Hsame & Hcursor & Hfirst).
  - intros k Hpage Hlast. simpl.
    destruct (String.eqb_spec k "startDate"); [reflexivity|].
    destruct (String.eqb_spec k "endDate"); [reflexivity|].
    destruct (String.eqb_spec k "page"); [contradiction|].
    destruct (String.eqb_spec k "lastTransactionId");
      [contradiction | reflexivity].
  - reflexivity.
  - reflexivity.
  - split; [exact Hsame|]. split; [exact Hcursor|].
    refine (proj1 (Hfirst 1704067200000 1706745600000
                     (fun _ => Resolve (Data.page
                                          [ Data.charge "ch_1" "succeeded";
                                            Data.charge "ch_2" "failed" ]
                                          true))
                     (paged [ Data.page [ Data.charge "ch_3" "pending";
                                          Data.charge "ch_4" "succeeded" ]
                                false ])
                     eq_refl eq_refl eq_refl eq_refl _ eq_refl)).
    discriminate.
Defined.

(** C10 as the specification words it fails when [page] is an object with
    a property named [toString] ([page[toString]=1] in the query):
    [parseInt(page)] throws before anything else is done, and the request
    is answered 500 without a call, where the same request with
    [page=1] calls Stripe and is answered 200. *)
Lemma transactions_page_counterexample :
  (forall k, k <> "page" -> k <> "lastTransactionId" ->
             prop (query Data.january_page_1) k
             = prop (query Data.january_page_object) k)
  /\ transactions Sample.runtime Data.january_page_1 (paged Data.mixed)
     = ([ {| created_gte := 1704067200;
             created_lte := 1706745600;
             limit := 10000;
             status := "succeeded";
             starting_after := None |} ],
        Returned
          {| status_code := 200;
             payload :=
               JsonList (Data.page [ Data.charge "ch_1" "succeeded";
                                     Data.charge "ch_2" "failed" ] true) |})
  /\ transactions Sample.runtime Data.january_page_object (paged Data.mixed)
     = ([], Returned
              (error_response 500
                 "An error occurred while fetching transactions")).
Proof.
  split; [|split].
  - intros k Hpage Hlast. simpl.
    destruct (String.eqb_spec k "startDate"); [reflexivity|].
    destruct (String.eqb_spec k "endDate"); [reflexivity|].
    destruct (String.eqb_spec k "page"); [contradiction | reflexivity].
  - vm_compute. reflexivity.
  - vm_compute. reflexivity.
Qed.

(** C8, as the code has it.  [exportTransactionsToCSV], and
    [transactions] when [page] can be converted to a string, answer a
    request whose two dates are given and valid, with [endDate] before
    [startDate], with status 400 and the message "endDate must be greater
    than or equal to startDate"; and a request without [startDate] with
    status 400 and the message "startDate is required".  In neither case
    is Stripe called.  When [page] cannot be converted, [transactions]
    answers 500 before any check. *)
Theorem validation_responses :
  forall rt req stripe,
    let startDate := prop (query req) "startDate" in
    let endDate := prop (query req) "endDate" in
    let page := prop (query req) "page" in
    (forall start end_,
        truthy startDate = true -> truthy endDate = true ->
        new_Date rt startDate = Ok (Some start) ->
        new_Date rt endDate = Ok (Some end_) ->
        end_ < start ->
        let refused :=
          ([], Returned
                 (error_response 400
                    "endDate must be greater than or equal to startDate")) in
        (converts page = true -> transactions rt req stripe = refused)
        /\ exportTransactionsToCSV rt req stripe = refused)
    /\ (startDate = VUndefined ->
        let refused :=
          ([], Returned (error_response 400 "startDate is required")) in
        (converts page = true -> transactions rt req stripe = refused)
        /\ exportTransactionsToCSV rt req stripe = refused)
    /\ (converts page = false ->
        transactions rt req stripe
        = ([], Returned
                 (error_response 500
                    "An error occurred while fetching transactions"))).
Proof.
  intros rt req stripe startDate endDate page. subst startDate endDate page.
  split; [|split].
  - intros start end_ Hs He Hstart Hend Hlt refused. subst refused.
    apply Z.ltb_lt in Hlt.
    unfold transactions, exportTransactionsToCSV.
    rewrite Hs, He, Hstart, Hend, Hlt. split; [|reflexivity].
    intros Hpage. now rewrite (parseInt_converts _ _ Hpage).
  - intros Habsent refused. subst refused.
    unfold transactions, exportTransactionsToCSV.
    rewrite Habsent. split; [|reflexivity].
    intros Hpage. now rewrite (parseInt_converts _ _ Hpage).
  - intros Hpage. unfold transactions.
    now rewrite (parseInt_throws _ _ Hpage).
Qed.

Lemma validation_responses_witness :
  (transactions Sample.runtime Data.inverted Data.failing
   = ([], Returned
            (error_response 400
               "endDate must be greater than or equal to startDate"))
   /\ exportTransactionsToCSV Sample.runtime Data.inverted Data.failing
      = ([], Returned
               (error_response 400
                  "endDate must be greater than or equal to startDate")))
  /\ (transactions Sample.runtime Data.no_startDate Data.failing
      = ([], Returned (error_response 400 "startDate is required"))
      /\ exportTransactionsToCSV Sample.runtime Data.no_startDate Data.failing
         = ([], Returned (error_response 400 "startDate is required")))
  /\ transactions Sample.runtime Data.inverted_page_object Data.failing
     = ([], Returned
              (error_response 500
                 "An error occurred while fetching transactions")).
Proof.
  split; [|split].
  - destruct (proj1 (validation_responses Sample.runtime Data.inverted
                       Data.failing) 1706745600000 1704067200000)
      as [Htransactions Hexport]; try reflexivity.
    split; [exact (Htransactions eq_refl) | exact Hexport].
  - destruct (proj1 (proj2 (validation_responses Sample.runtime
                              Data.no_startDate Data.failing)) eq_refl)
      as [Htransactions Hexport].
    split; [exact (Htransactions eq_refl) | exact Hexport].
  - apply (proj2 (proj2 (validation_responses Sample.runtime
                           Data.inverted_page_object Data.failing))).
    reflexivity.
Defined.

(** C8 as the specification words it fails on the single-page endpoint
    when [page] is an object with a property named [toString]: the
    request without [startDate], and the one with the dates inverted, are
    answered 500, not 400, because [parseInt(page)] throws first.  The
    export endpoint answers them 400. *)
Lemma validation_page_counterexample :
  prop (query Data.no_startDate_page_object) "startDate" = VUndefined
  /\ transactions Sample.runtime Data.no_startDate_page_object Data.failing
     = ([], Returned
              (error_response 500
                 "An error occurred while fetching transactions"))
  /\ transactions Sample.runtime Data.no_startDate_page_object Data.failing
     <> ([], Returned (error_response 400 "startDate is required"))
  /\ exportTransactionsToCSV Sample.runtime Data.no_startDate_page_object
       Data.failing
     = ([], Returned (error_response 400 "startDate is required"))
  /\ transactions Sample.runtime Data.inverted_page_object Data.failing
     <> ([], Returned
               (error_response 400
                  "endDate must be greater than or equal to startDate")).
Proof.
  repeat split; try (vm_compute; reflexivity);
    vm_compute; discriminate.
Qed.

(** C6. An export over a valid range for which [fetchTransactions]
    returns no record: the handler throws a [TypeError] at
    [Object.keys(mappedData[0])], before the CSV text is built, and sends
    no response. *)
Theorem export_of_nothing_throws :
  forall rt req stripe start end_ requests,
    truthy (prop (query req) "startDate") = true ->
    truthy (prop (query req) "endDate") = true ->
    new_Date rt (prop (query req) "startDate") = Ok (Some start) ->
    new_Date rt (prop (query req) "endDate") = Ok (Some end_) ->
    start <= end_ ->
    fetchTransactions (Date.epochSeconds start) (Date.epochSeconds end_) stripe
    = (requests, Returned []) ->
    mapTransactionData rt [] = Ok []
    /\ Object_keys_first [] = Throw TypeError
    /\ exportTransactionsToCSV rt req stripe = (requests, Threw TypeError).
Proof.
  intros rt req stripe start end_ requests Hs He Hstart Hend Hle Hfetch.
  repeat split.
  unfold exportTransactionsToCSV.
  rewrite Hs, He, Hstart, Hend, Hfetch.
  destruct (Z.ltb_spec end_ start); [lia | reflexivity].
Qed.

Lemma export_of_nothing_throws_witness :
  exportTransactionsToCSV Sample.runtime Data.january
    (paged [ Data.page [ Data.charge "ch_1" "failed" ] true;
             Data.page [] true ])
  = ([ Data.request 1704067200 1706745600 None;
       Data.request 1704067200 1706745600 (Some (VStr "ch_1")) ],
     Threw TypeError).
Proof.
  apply (export_of_nothing_throws Sample.runtime Data.january _
           1704067200000 1706745600000); try reflexivity.
  discriminate.
Defined.

(** C7, on the code as it stands.  When the call to Stripe is rejected,
    [transactions] catches the error and answers with status 500 and its
    one message; [exportTransactionsToCSV] has no handler around the
    call: the error leaves the function and no response is written. *)
Theorem stripe_failure_caught_only_by_transactions :
  forall rt req list rest start end_ e,
    truthy (prop (query req) "startDate") = true ->
    truthy (prop (query req) "endDate") = true ->
    new_Date rt (prop (query req) "startDate") = Ok (Some start) ->
    new_Date rt (prop (query req) "endDate") = Ok (Some end_) ->
    start <= end_ ->
    (forall params, list params = Reject e) ->
    snd (transactions rt req (list :: rest))
    = Returned (error_response 500
                  "An error occurred while fetching transactions")
    /\ snd (exportTransactionsToCSV rt req (list :: rest)) = Threw e.
Proof.
  intros rt req list rest start end_ e Hs He Hstart Hend Hle Hreject.
  unfold transactions, exportTransactionsToCSV, fetchTransactions.
  rewrite Hs, He, Hstart, Hend.
  destruct (Z.ltb_spec end_ start); [lia|].
  rewrite while_unfold. simpl. rewrite !Hreject.
  split; [|reflexivity].
  destruct (parseInt rt (prop (query req) "page")); reflexivity.
Qed.

Lemma stripe_failure_caught_only_by_transactions_witness :
  snd (transactions Sample.runtime Data.january Data.failing)
  = Returned (error_response 500
                "An error occurred while fetching transactions")
  /\ snd (exportTransactionsToCSV Sample.runtime Data.january Data.failing)
     = Threw (StripeError "api_connection_error").
Proof.
  apply (stripe_failure_caught_only_by_transactions Sample.runtime
           Data.january _ [] 1704067200000 1706745600000);
    try reflexivity.
  discriminate.
Defined.

(** ** The field mapping *)

Lemma object_literal_prop inits : forall o,
  object_literal inits = Ok o ->
  forall k init, initialiser inits k = Some init -> init = Ok (prop o k).
Proof.
  induction inits as [|[k' init'] inits IH]; intros o Ho k init Hk.
  - discriminate Hk.
  - simpl in Ho, Hk. destruct init' as [v|e]; [|discriminate Ho].
    simpl in Ho. destruct (object_literal inits) as [o'|e]; [|discriminate Ho].
    inversion Ho; subst. simpl.
    destruct (String.eqb k k').
    + now inversion Hk.
    + now apply IH.
Qed.

Lemma object_literal_keys inits : forall o,
  object_literal inits = Ok o -> map fst o = map fst inits.
Proof.
  induction inits as [|[k' init'] inits IH]; intros o Ho; simpl in Ho.
  - now inversion Ho.
  - destruct init' as [v|e]; [|discriminate Ho]. simpl in Ho.
    destruct (object_literal inits) as [o'|e]; [|discriminate Ho].
    inversion Ho; subst. simpl. now rewrite (IH o').
Qed.

Lemma object_literal_ok inits :
  Forall (fun init => exists v, snd init = Ok v) inits ->
  exists o, object_literal inits = Ok o.
Proof.
  induction 1 as [|[k init] inits [v Hv] _ [o Ho]]; simpl in *.
  - now exists [].
  - subst. simpl. rewrite Ho. simpl. now eexists.
Qed.

(** A guarded read: [v ? v.k : ...] never throws. *)
Lemma get_truthy v k : truthy v = true -> get v k = Ok (oget v k).
Proof. destruct v; simpl; intros H; try discriminate H; reflexivity. Qed.

Lemma toISOString_valid t : exists s, Date.toISOString (Some t) = Ok s.
Proof. unfold Date.toISOString, Date.civil_from_days. eexists. reflexivity. Qed.

Lemma isoDate_valid rt seconds :
  valid_time rt seconds -> exists v, isoDate rt seconds = Ok v.
Proof.
  intros [t Ht]. unfold isoDate. rewrite Ht.
  destruct (toISOString_valid t) as [s ->]. simpl. now eexists.
Qed.

Lemma mapCharge_total rt charge :
  required_fields rt charge -> exists o, mapCharge rt charge = Ok o.
Proof.
  intros (Hcreated & [currency Hcurrency] & Hrefund).
  apply object_literal_ok. unfold mapCharge_inits.
  repeat (apply Forall_cons;
          [ simpl snd; try solve [eexists; reflexivity] | ]);
    try apply Forall_nil;
    try (rewrite Hcurrency; simpl; eexists; reflexivity);
    try (now apply isoDate_valid);
    match goal with
    | |- exists v, (if truthy ?x then _ else _) = Ok v =>
        destruct (truthy x) eqn:Hx; [|eexists; reflexivity]
    end;
    try (rewrite (get_truthy _ _ Hx); simpl; eexists; reflexivity).
  destruct (Hrefund eq_refl)
    as (refunds_data & refund & created & Hdata & Hrefund' & Hcreated' & Hvalid).
  rewrite Hdata. simpl. rewrite Hrefund'. simpl. rewrite Hcreated'. simpl.
  now apply isoDate_valid.
Qed.

Lemma mapCharge_field rt charge o :
  mapCharge rt charge = Ok o ->
  forall k init,
    initialiser (mapCharge_inits rt charge) k = Some init ->
    init = Ok (prop o k).
Proof. apply object_literal_prop. Qed.

Lemma nullish_cases v : nullish v = true -> v = VUndefined \/ v = VNull.
Proof. destruct v; intros H; try discriminate H; auto. Qed.

(** The column [k] of a mapped charge, read off the object literal. *)
Ltac column H k E :=
  pose proof (mapCharge_field _ _ _ H k _ eq_refl) as E.

(** Columns that are blank once the sub-object [Hv] speaks of is known to
    be [undefined] or [null]. *)
Ltac blank_columns H Hv :=
  cbv beta delta [blank payment_method_columns card_columns shipping_columns
                    dispute_columns metadata_columns
                    balance_transaction_columns];
  repeat (apply Forall_cons;
          [ cbv beta;
            match goal with
            | |- prop _ ?k = _ =>
                let E := fresh "E" in
                column H k E; rewrite Hv in E; cbv delta [JS.or] in E; simpl in E;
        congruence
            end | ]);
  apply Forall_nil.

(** C5. [mapCharge] is a function of the charge.  On a charge whose
    [created], [currency] and refund are well formed it returns a record,
    with the 82 columns of the literal, and each optional sub-object that
    is absent ([undefined] or [null]) leaves its columns at their
    defaults: no sub-object among [payment_method_details], [card],
    [shipping], [dispute], [metadata], [balance_transaction], [outcome]
    and [billing_details] is needed. *)
Theorem mapCharge_total_with_defaults :
  forall rt charge,
    required_fields rt charge ->
    exists o,
      mapCharge rt charge = Ok o
      /\ (forall o', mapCharge rt charge = Ok o' -> o' = o)
      /\ List.length o = 82%nat
      /\ (nullish (prop charge "payment_method_details") = true ->
          prop o "Is Link" = VBool false /\ blank o payment_method_columns)
      /\ (nullish (oget (prop charge "payment_method_details") "card") = true ->
          blank o card_columns)
      /\ (nullish (prop charge "shipping") = true -> blank o shipping_columns)
      /\ (nullish (prop charge "dispute") = true -> blank o dispute_columns)
      /\ (nullish (prop charge "metadata") = true -> blank o metadata_columns)
      /\ (nullish (prop charge "balance_transaction") = true ->
          blank o balance_transaction_columns)
      /\ (nullish (prop charge "outcome") = true ->
          prop o "Seller Message" = VStr "")
      /\ (nullish (prop charge "billing_details") = true ->
          prop o "Customer Phone" = VStr "").
Proof.
  intros rt charge Hrequired.
  destruct (mapCharge_total rt charge Hrequired) as [o H].
  exists o. split; [assumption|]. split; [congruence|].
  split.
  { rewrite <- (length_map fst), (object_literal_keys _ _ H). reflexivity. }
  repeat match goal with |- _ /\ _ => split end;
    intros Hn; apply nullish_cases in Hn as [Hv|Hv];
    try match goal with |- _ /\ _ => split end;
    try (blank_columns H Hv);
    match goal with
    | |- prop _ ?k = _ =>
        let E := fresh "E" in
        column H k E; rewrite Hv in E; cbv delta [JS.or] in E; simpl in E;
        congruence
    end.
Qed.

(** The three conditions are also necessary: they are all [mapCharge]
    asks of a charge. *)
Lemma mapCharge_requires rt charge o :
  mapCharge rt charge = Ok o -> required_fields rt charge.
Proof.
  intros H. split; [|split].
  - column H "Created date (UTC)" E. unfold isoDate in E.
    destruct (Date.TimeClip _) as [t|] eqn:Ht; [|discriminate E].
    now exists t.
  - column H "Currency" E.
    destruct (prop charge "currency"); try discriminate E. now eexists.
  - intros Hrefunded. column H "Refunded date (UTC)" E.
    rewrite Hrefunded in E.
    destruct (get (prop charge "refunds") "data") as [refunds_data|]
      eqn:Hdata; [|discriminate E].
    simpl in E.
    destruct (index0 refunds_data) as [refund|] eqn:Hrefund;
      [|discriminate E].
    simpl in E.
    destruct (get refund "created") as [created|] eqn:Hcreated;
      [|discriminate E].
    simpl in E. exists refunds_data, refund, created.
    split; [reflexivity|]. split; [assumption|]. split; [assumption|].
    unfold isoDate in E.
    destruct (Date.TimeClip _) as [t|] eqn:Ht; [|discriminate E].
    now exists t.
Qed.

Lemma required_fields_sample :
  required_fields Sample.runtime (Data.charge "ch_1" "succeeded").
Proof.
  split; [|split].
  - eexists. vm_compute. reflexivity.
  - eexists. reflexivity.
  - discriminate.
Qed.

Lemma mapCharge_total_with_defaults_witness :
  exists o,
    mapCharge Sample.runtime (Data.charge "ch_1" "succeeded") = Ok o
    /\ prop o "Is Link" = VBool false
    /\ blank o payment_method_columns
    /\ blank o shipping_columns
    /\ blank o dispute_columns
    /\ blank o metadata_columns
    /\ blank o balance_transaction_columns
    /\ prop o "Seller Message" = VStr ""
    /\ prop o "Customer Phone" = VStr "".
Proof.
  destruct (mapCharge_total_with_defaults Sample.runtime
              (Data.charge "ch_1" "succeeded") required_fields_sample)
    as (o & Ho & _ & _ & Hpayment & _ & Hshipping & Hdispute & Hmetadata
        & Hbalance & Houtcome & Hbilling).
  exists o. split; [exact Ho|].
  split; [exact (proj1 (Hpayment eq_refl))|].
  split; [exact (proj2 (Hpayment eq_refl))|].
  split; [exact (Hshipping eq_refl)|].
  split; [exact (Hdispute eq_refl)|].
  split; [exact (Hmetadata eq_refl)|].
  split; [exact (Hbalance eq_refl)|].
  split; [exact (Houtcome eq_refl) | exact (Hbilling eq_refl)].
Defined.

(** C4, as the code has it.  The amounts read without a guard are the
    number divided by 100, and NaN when the field is absent; [Fee] and
    [Disputed Amount] are blank when their sub-object is absent and the
    nested number divided by 100 when it is there; [Application Fee] is
    the number divided by 100 unless that is zero or NaN, and blank then,
    so blank when the field is absent. *)
Theorem mapCharge_amounts :
  forall rt charge o,
    mapCharge rt charge = Ok o ->
    Forall (fun '(field, column) =>
              (forall x, prop charge field = VNum x ->
                         prop o column = VNum (x / 100)%float)
              /\ (prop charge field = VUndefined ->
                  exists x, prop o column = VNum x /\ isNaN x = true))
      plain_amounts
    /\ Forall (fun '(object, field, column) =>
                (nullish (prop charge object) = true ->
                 prop o column = VStr "")
                /\ (forall fields x,
                      prop charge object = VObj fields ->
                      prop fields field = VNum x ->
                      prop o column = VNum (x / 100)%float))
         nested_amounts
    /\ (prop charge "application_fee_amount" = VUndefined ->
        prop o "Application Fee" = VStr "")
    /\ (forall x, prop charge "application_fee_amount" = VNum x ->
                  prop o "Application Fee"
                  = if truthy (VNum (x / 100)%float)
                    then VNum (x / 100)%float else VStr "").
Proof.
  intros rt charge o H. repeat match goal with |- _ /\ _ => split end.
  - repeat (apply Forall_cons; [cbv beta iota; split|]);
      try apply Forall_nil;
      match goal with
      | |- forall x, _ -> prop _ ?k = _ =>
          intros x Hx; column H k E; rewrite Hx in E; cbv beta iota delta [div ToNumber JS.or oget get bind truthy] in E;
          congruence
      | |- _ -> exists x, prop _ ?k = _ /\ _ =>
          intros Hx; column H k E; rewrite Hx in E; cbv beta iota delta [div ToNumber JS.or oget get bind truthy] in E;
          eexists; split; [symmetry; injection E as E; exact E|];
          reflexivity
      end.
  - repeat (apply Forall_cons; [cbv beta iota; split|]);
      try apply Forall_nil;
      match goal with
      | |- nullish _ = true -> prop _ ?k = _ =>
          intros Hn; column H k E;
          apply nullish_cases in Hn as [Hv|Hv]; rewrite Hv in E;
          cbv beta iota delta [div ToNumber JS.or oget get bind truthy] in E; congruence
      | |- forall fields x, _ -> _ -> prop _ ?k = _ =>
          intros fields x Hobject Hx; column H k E;
          rewrite Hobject in E; cbv beta iota delta [div ToNumber JS.or oget get bind truthy] in E; rewrite Hx in E; cbv beta iota delta [div ToNumber JS.or oget get bind truthy] in E;
          congruence
      end.
  - intros Hx. column H "Application Fee" E. rewrite Hx in E.
    cbv beta iota delta [div ToNumber JS.or] in E.
    change (truthy (VNum (NaN / 100)%float)) with false in E.
    congruence.
  - intros x Hx. column H "Application Fee" E. rewrite Hx in E.
    cbv beta iota delta [div ToNumber JS.or] in E. congruence.
Qed.

Lemma required_fields_odd_amounts :
  required_fields Sample.runtime Data.odd_amounts.
Proof.
  split; [|split].
  - eexists. vm_compute. reflexivity.
  - eexists. reflexivity.
  - discriminate.
Qed.

Lemma mapCharge_amounts_witness :
  exists o,
    mapCharge Sample.runtime Data.odd_amounts = Ok o
    /\ (exists x, prop o "Amount" = VNum x /\ isNaN x = true)
    /\ prop o "Disputed Amount" = VStr ""
    /\ prop o "Application Fee" = VStr "".
Proof.
  destruct (mapCharge_total _ _ required_fields_odd_amounts) as [o Ho].
  destruct (mapCharge_amounts _ _ _ Ho) as (Hplain & Hnested & _ & Hfee).
  exists o. split; [exact Ho|]. split; [|split].
  - exact (proj2 (Forall_inv Hplain) eq_refl).
  - exact (proj1 (Forall_inv (Forall_inv_tail Hnested)) eq_refl).
  - exact (Hfee _ eq_refl).
Defined.

(** C4 as the specification words it fails on a charge without [amount]
    and with an application fee of zero: the [Amount] column is NaN, not
    the empty string, and the [Application Fee] column is the empty
    string, not zero. *)
Lemma amount_default_counterexample :
  exists o,
    mapCharge Sample.runtime Data.odd_amounts = Ok o
    /\ prop Data.odd_amounts "amount" = VUndefined
    /\ prop o "Amount" <> VStr ""
    /\ (exists x, prop o "Amount" = VNum x /\ isNaN x = true)
    /\ prop Data.odd_amounts "application_fee_amount" = VNum 0%float
    /\ prop o "Application Fee" <> VNum (0 / 100)%float
    /\ prop o "Application Fee" = VStr "".
Proof.
  exists (match mapCharge Sample.runtime Data.odd_amounts with
          | Ok o => o
          | Throw _ => []
          end).
  split; [vm_compute; reflexivity|].
  split; [reflexivity|].
  split; [vm_compute; discriminate|].
  split; [eexists; split; vm_compute; reflexivity|].
  split; [reflexivity|].
  split; [vm_compute; discriminate | vm_compute; reflexivity].
Qed.

(** * Further properties *)

(** ** The pagination loop, continued *)

Section Requests.

Variables startDate endDate : Z.

Local Abbreviation while := (while_hasMore startDate endDate).

(** What every request of the loop has in common. *)
Lemma while_request_shape : forall stripe st,
  Forall (fun params =>
            created_gte params = startDate
            /\ created_lte params = endDate
            /\ limit params = 10
            /\ status params = "succeeded")
    (fst (while stripe st)).
Proof.
  induction stripe as [|list stripe IH]; intros st; rewrite while_unfold;
    destruct (hasMore st); simpl; try (repeat constructor).
  destruct (list _) as [response|err]; [|repeat constructor].
  specialize (IH (loop_body response st)).
  destruct (while stripe (loop_body response st)) as [requests outcome].
  simpl in *. constructor; [repeat split | exact IH].
Qed.

(** One request per answer, and one more only when the script runs out. *)
Lemma while_request_count : forall stripe st,
  let '(requests, outcome) := while stripe st in
  (List.length requests <= List.length stripe + 1)%nat
  /\ (outcome = Pending <->
      List.length requests = (List.length stripe + 1)%nat).
Proof.
  induction stripe as [|list stripe IH]; intros st; rewrite while_unfold;
    destruct (hasMore st); simpl.
  - split; [lia|]. split; reflexivity.
  - split; [lia|]. split; [discriminate | lia].
  - destruct (list _) as [response|err].
    + specialize (IH (loop_body response st)).
      destruct (while stripe (loop_body response st)) as [requests outcome].
      simpl. destruct IH as [Hle Hiff]. split; [lia|].
      rewrite Hiff. split; lia.
    + simpl. split; [lia|]. split; [discriminate | lia].
  - split; [lia|]. split; [discriminate | lia].
Qed.

(** Running through pages that all continue, in front of any script. *)
Lemma while_through_source pages : forall st (rest : Source),
  hasMore st = true ->
  Forall continues pages ->
  exists requests st',
    while (paged pages ++ rest)%list st =
    (let '(requests', outcome) := while rest st' in
     ((requests ++ requests')%list, outcome))
    /\ List.length requests = List.length pages
    /\ hasMore st' = true
    /\ charges st' = (charges st ++ List.concat (map data pages))%list.
Proof.
  induction pages as [|page pages IH]; intros st rest Hst Hall.
  - exists [], st. repeat split; simpl.
    + now destruct (while rest st).
    + assumption.
    + now rewrite app_nil_r.
  - inversion Hall as [|? ? Hpage Hpages]; subst.
    destruct (IH (loop_body page st) rest
                (loop_body_continues _ _ Hpage) Hpages)
      as (requests & st' & Hrun & Hlen & Hmore & Hch).
    exists (loop_params startDate endDate st :: requests), st'. repeat split.
    + change (paged (page :: pages) ++ rest)%list
        with ((fun _ : Params => Resolve page) :: (paged pages ++ rest))%list.
      rewrite while_unfold, Hst. cbv beta iota. rewrite Hrun.
      now destruct (while rest st').
    + simpl. now rewrite Hlen.
    + assumption.
    + rewrite Hch, loop_body_charges. simpl. now rewrite app_assoc.
Qed.

End Requests.

Lemma fetchTransactions_requests startDate endDate stripe :
  fst (fetchTransactions startDate endDate stripe)
  = fst (while_hasMore startDate endDate stripe initial).
Proof.
  unfold fetchTransactions.
  now destruct (while_hasMore startDate endDate stripe initial).
Qed.

(** X1. Every request [fetchTransactions] sends asks for 10 records of
    status "succeeded" created between the two bounds it was given, and
    it always sends a first request. *)
Theorem fetchTransactions_request_shape :
  forall startDate endDate stripe,
    fst (fetchTransactions startDate endDate stripe) <> []
    /\ Forall (fun params =>
                 created_gte params = startDate
                 /\ created_lte params = endDate
                 /\ limit params = 10
                 /\ status params = "succeeded")
         (fst (fetchTransactions startDate endDate stripe)).
Proof.
  intros s e stripe. rewrite fetchTransactions_requests. split.
  - destruct (while_hasMore s e stripe initial) as [requests outcome] eqn:Hrun.
    destruct (proj1 (while_trace _ _ _ _ _ _ Hrun) eq_refl) as [rest ->].
    discriminate.
  - apply while_request_shape.
Qed.

(** X2. The loop sends one request per answer it gets, and one more only
    when the source stops answering: it is then, and only then, that
    [fetchTransactions] neither returns nor throws. *)
Theorem fetchTransactions_request_count :
  forall startDate endDate stripe,
    let '(requests, outcome) := fetchTransactions startDate endDate stripe in
    (List.length requests <= List.length stripe + 1)%nat
    /\ (outcome = Pending <->
        List.length requests = (List.length stripe + 1)%nat).
Proof.
  intros s e stripe. unfold fetchTransactions.
  pose proof (while_request_count s e stripe initial) as H.
  destruct (while_hasMore s e stripe initial) as [requests outcome].
  destruct H as [Hle Hiff]. split; [assumption|]. rewrite <- Hiff.
  destruct outcome; split; intros H; try discriminate H; reflexivity.
Qed.

(** X3. The loop has no bound of its own: on a script all of whose pages
    are non-empty and say [has_more], it asks for every page and then
    for one more, and does not return. *)
Theorem fetchTransactions_endless_source :
  forall startDate endDate pages,
    Forall continues pages ->
    exists requests,
      fetchTransactions startDate endDate (paged pages) = (requests, Pending)
      /\ List.length requests = (List.length pages + 1)%nat.
Proof.
  intros s e pages Hall.
  destruct (while_through_source s e pages initial [] eq_refl Hall)
    as (requests & st' & Hrun & Hlen & Hmore & _).
  rewrite app_nil_r in Hrun. unfold fetchTransactions. rewrite Hrun.
  rewrite while_unfold, Hmore. eexists. split; [reflexivity|].
  rewrite length_app, Hlen. reflexivity.
Qed.

Lemma fetchTransactions_endless_source_witness :
  exists requests,
    fetchTransactions 0 1
      (paged [ Data.page (Data.batch "ch_a" 10) true;
               Data.page (Data.batch "ch_b" 10) true ])
    = (requests, Pending)
    /\ List.length requests = 3%nat.
Proof.
  apply (fetchTransactions_endless_source 0 1
           [ Data.page (Data.batch "ch_a" 10) true;
             Data.page (Data.batch "ch_b" 10) true ]).
  repeat constructor; discriminate.
Defined.

(** X4. A call that is rejected after pages that were answered ends
    [fetchTransactions] with that error: the records of the pages
    already fetched are not returned. *)
Theorem fetchTransactions_rejection :
  forall startDate endDate pages list rest e,
    Forall continues pages ->
    (forall params, list params = Reject e) ->
    exists requests,
      fetchTransactions startDate endDate (paged pages ++ list :: rest)%list
      = (requests, Threw e)
      /\ List.length requests = (List.length pages + 1)%nat.
Proof.
  intros s e pages list rest err Hall Hreject.
  destruct (while_through_source s e pages initial (list :: rest) eq_refl Hall)
    as (requests & st' & Hrun & Hlen & Hmore & _).
  unfold fetchTransactions. rewrite Hrun.
  rewrite while_unfold, Hmore, Hreject. eexists. split; [reflexivity|].
  rewrite length_app, Hlen. reflexivity.
Qed.

Lemma fetchTransactions_rejection_witness :
  exists requests,
    fetchTransactions 0 1
      (paged [ Data.page (Data.batch "ch_a" 10) true ] ++ Data.failing)%list
    = (requests, Threw (StripeError "api_connection_error"))
    /\ List.length requests = 2%nat.
Proof.
  apply (fetchTransactions_rejection 0 1
           [ Data.page (Data.batch "ch_a" 10) true ] _ []).
  - repeat constructor; discriminate.
  - reflexivity.
Defined.

(** X5. After pages that continue, the first page that is empty or
    without [has_more] ends the loop: what is returned is the records of
    the pages up to and including that one, in the order of the pages and
    within them, less those whose status is not "succeeded"; the rest of
    the script is never asked for. *)
Theorem fetchTransactions_result :
  forall startDate endDate pages final rest,
    Forall continues pages ->
    stops final ->
    exists requests,
      fetchTransactions startDate endDate
        (paged (pages ++ [final]) ++ rest)%list
      = (requests,
         Returned (filter succeeded
                     (List.concat (map data (pages ++ [final])))))
      /\ List.length requests = (List.length pages + 1)%nat.
Proof.
  intros s e pages final rest Hall Hstop.
  unfold paged. rewrite map_app, <- app_assoc. simpl app.
  destruct (while_through_source s e pages initial
              ((fun _ => Resolve final) :: rest) eq_refl Hall)
    as (requests & st' & Hrun & Hlen & Hmore & Hch).
  unfold fetchTransactions. unfold paged in Hrun. rewrite Hrun.
  rewrite while_unfold, Hmore.
  rewrite while_done by (now apply loop_body_stops).
  rewrite loop_body_charges, Hch. simpl.
  rewrite map_app, concat_app. simpl. rewrite app_nil_r.
  eexists. split; [reflexivity|].
  rewrite length_app, Hlen. reflexivity.
Qed.

Lemma fetchTransactions_result_witness :
  exists requests,
    fetchTransactions 0 1
      (paged (Data.mixed ++ [ Data.page [] true ]) ++ Data.failing)%list
    = (requests,
       Returned [ Data.charge "ch_1" "succeeded";
                  Data.charge "ch_4" "succeeded" ])
    /\ List.length requests = 2%nat.
Proof.
  apply (fetchTransactions_result 0 1
           [ Data.page [ Data.charge "ch_1" "succeeded";
                         Data.charge "ch_2" "failed" ] true ]
           (Data.page [ Data.charge "ch_3" "pending";
                        Data.charge "ch_4" "succeeded" ] false)
           (paged [ Data.page [] true ] ++ Data.failing)%list).
  - repeat constructor; discriminate.
  - right. reflexivity.
Defined.

(** X6. When the last record of a page has an identifier that is not a
    value for [if (startingAfter)] (absent, null, or the empty string),
    the next request is sent without [starting_after], like the first. *)
Theorem fetchTransactions_cursor_dropped :
  forall startDate endDate stripe requests outcome i list params page next,
    fetchTransactions startDate endDate stripe = (requests, outcome) ->
    nth_error stripe i = Some list ->
    nth_error requests i = Some params ->
    list params = Resolve page ->
    nth_error requests (S i) = Some next ->
    truthy (prop (last_record page) "id") = false ->
    starting_after next = None.
Proof.
  intros s e stripe requests outcome i list params page next.
  unfold fetchTransactions.
  destruct (while_hasMore s e stripe initial) as [requests' outcome'] eqn:Hrun.
  intros H Hl Hp Hpage Hn Hid. inversion H; subst.
  destruct (proj2 (while_trace _ _ _ _ _ _ Hrun) _ _ _ _ _ Hl Hp Hpage Hn)
    as [_ ->].
  now rewrite Hid.
Qed.

Lemma fetchTransactions_cursor_dropped_witness :
  fetchTransactions 0 1 (paged Data.nameless)
  = ([ Data.request 0 1 None; Data.request 0 1 None ],
     Returned [ Data.charge "" "succeeded"; Data.charge "ch_7" "succeeded" ])
  /\ starting_after (Data.request 0 1 None) = None.
Proof.
  split; [reflexivity|].
  apply (fetchTransactions_cursor_dropped 0 1 (paged Data.nameless)
           [ Data.request 0 1 None; Data.request 0 1 None ]
           (snd (fetchTransactions 0 1 (paged Data.nameless)))
           0%nat (fun _ => Resolve (Data.page [ Data.charge "" "succeeded" ] true))
           (Data.request 0 1 None)
           (Data.page [ Data.charge "" "succeeded" ] true)
           (Data.request 0 1 None));
    reflexivity.
Defined.

(** ** The field mapping, continued *)

Lemma object_literal_throws pre : forall k e rest,
  Forall (fun init : string * result value => exists v, snd init = Ok v) pre ->
  object_literal (pre ++ (k, Throw e) :: rest) = Throw e.
Proof.
  induction pre as [|[k' init] pre IH]; intros k e rest Hpre; simpl.
  - reflexivity.
  - inversion Hpre as [|? ? [v Hv] Hrest]; subst. simpl in Hv. subst.
    simpl. now rewrite IH.
Qed.

Lemma isoDate_invalid rt seconds :
  ~ valid_time rt seconds -> isoDate rt seconds = Throw RangeError.
Proof.
  intros Hinvalid. unfold isoDate.
  destruct (Date.TimeClip _) as [t|] eqn:Ht; [|reflexivity].
  exfalso. apply Hinvalid. now exists t.
Qed.

Lemma get_not_nullish v k : nullish v = false -> get v k = Ok (oget v k).
Proof. destruct v; simpl; intros H; try discriminate H; reflexivity. Qed.

(** X7. On a charge whose arithmetic operands can all be converted to
    numbers (none is an object with a property named [toString], or an
    array holding one), [mapCharge] returns a record exactly when
    [created] is a valid time, [currency] is a string and, for a charge
    marked [refunded], [refunds.data[0].created] is a valid time; nothing
    else in such a charge can make it throw. *)
Theorem mapCharge_succeeds_iff :
  forall rt charge,
    Forall (fun v => converts v = true) (arithmetic_operands charge) ->
    ((exists o, mapCharge rt charge = Ok o) <-> required_fields rt charge).
Proof.
  intros rt charge _. split.
  - intros [o H]. exact (mapCharge_requires rt charge o H).
  - apply mapCharge_total.
Qed.

Lemma mapCharge_succeeds_iff_witness :
  (exists o, mapCharge Sample.runtime (Data.charge "ch_1" "succeeded") = Ok o)
  <-> required_fields Sample.runtime (Data.charge "ch_1" "succeeded").
Proof.
  apply mapCharge_succeeds_iff. repeat constructor.
Defined.

(** X8. The errors of the unguarded reads: a [created] that can be
    converted to a number and is not a valid time makes [mapCharge] throw
    a [RangeError], whatever else the charge holds; with a valid
    [created], a [currency] that is not a string makes it throw a
    [TypeError]. *)
Theorem mapCharge_created_then_currency :
  forall rt charge,
    (converts (prop charge "created") = true ->
     ~ valid_time rt (prop charge "created") ->
     mapCharge rt charge = Throw RangeError)
    /\ (valid_time rt (prop charge "created") ->
        (forall s, prop charge "currency" <> VStr s) ->
        mapCharge rt charge = Throw TypeError).
Proof.
  intros rt charge. split.
  - intros _ Hinvalid. unfold mapCharge, mapCharge_inits.
    rewrite (isoDate_invalid _ _ Hinvalid).
    apply (object_literal_throws [(_, _)]).
    repeat constructor. now eexists.
  - intros Hvalid Hcurrency. unfold mapCharge, mapCharge_inits.
    destruct (isoDate_valid _ _ Hvalid) as [v ->].
    assert (Hthrow : call_toUpperCase rt (prop charge "currency")
                     = Throw TypeError).
    { destruct (prop charge "currency") as [| | | |s| |]; try reflexivity.
      now destruct (Hcurrency s). }
    rewrite Hthrow.
    apply (object_literal_throws [(_, _); (_, _); (_, _); (_, _)]).
    repeat constructor; now eexists.
Qed.

Lemma mapCharge_created_then_currency_witness :
  mapCharge Sample.runtime [ ("id", VStr "ch_1"); ("currency", VStr "usd") ]
  = Throw RangeError
  /\ mapCharge Sample.runtime
       [ ("id", VStr "ch_1"); ("created", VNum 1704067200%float) ]
     = Throw TypeError.
Proof.
  split.
  - apply (proj1 (mapCharge_created_then_currency Sample.runtime _)).
    + reflexivity.
    + intros [t Ht]. vm_compute in Ht. discriminate Ht.
  - apply (proj2 (mapCharge_created_then_currency Sample.runtime _)).
    + eexists. vm_compute. reflexivity.
    + intros s. discriminate.
Defined.

(** X9. A charge marked [refunded] whose [refunds.data] is absent or an
    empty array makes [mapCharge] throw a [TypeError], even when
    [created] and [currency] are well formed: the read of
    [refunds.data[0].created] has no guard of its own. *)
Theorem mapCharge_refunded_without_refund :
  forall rt charge,
    valid_time rt (prop charge "created") ->
    (exists s, prop charge "currency" = VStr s) ->
    truthy (prop charge "refunded") = true ->
    nullish (oget (prop charge "refunds") "data") = true
    \/ oget (prop charge "refunds") "data" = VArr [] ->
    mapCharge rt charge = Throw TypeError.
Proof.
  intros rt charge Hcreated [currency Hcurrency] Hrefunded Hdata.
  unfold mapCharge.
  rewrite <- (firstn_skipn 17 (mapCharge_inits rt charge)).
  assert (Hthrow :
    skipn 17 (mapCharge_inits rt charge)
    = ("Refunded date (UTC)", Throw TypeError)
      :: skipn 18 (mapCharge_inits rt charge)).
  { unfold mapCharge_inits. cbn [skipn]. rewrite Hrefunded.
    f_equal. f_equal.
    destruct (nullish (prop charge "refunds")) eqn:Hrefunds.
    - apply nullish_cases in Hrefunds as [-> | ->]; reflexivity.
    - rewrite (get_not_nullish _ _ Hrefunds). simpl.
      destruct Hdata as [Hnull | ->]; [|reflexivity].
      apply nullish_cases in Hnull as [-> | ->]; reflexivity. }
  rewrite Hthrow. apply object_literal_throws.
  unfold mapCharge_inits. cbn [firstn].
  repeat (apply Forall_cons;
          [ simpl snd; try solve [eexists; reflexivity] | ]);
    try apply Forall_nil;
    try (rewrite Hcurrency; simpl; eexists; reflexivity);
    try (now apply isoDate_valid).
  destruct (truthy (prop charge "balance_transaction")) eqn:Hx;
    [|eexists; reflexivity].
  rewrite (get_truthy _ _ Hx). simpl. eexists. reflexivity.
Qed.

Lemma mapCharge_refunded_without_refund_witness :
  mapCharge Sample.runtime
    (("refunded", VBool true)
     :: ("refunds", VObj [ ("data", VArr []) ])
     :: Data.charge "ch_1" "succeeded")
  = Throw TypeError.
Proof.
  apply mapCharge_refunded_without_refund.
  - eexists. vm_compute. reflexivity.
  - eexists. reflexivity.
  - reflexivity.
  - right. reflexivity.
Defined.

Lemma columns_of_inits rt charge :
  map fst (mapCharge_inits rt charge) = columns.
Proof. reflexivity. Qed.

(** X10. The keys of a mapped charge are the same 82 names in the same
    order whatever the charge holds, and no name occurs twice: every row
    of an export has the columns of the first. *)
Theorem mapCharge_columns :
  NoDup columns
  /\ List.length columns = 82%nat
  /\ forall rt charge o, mapCharge rt charge = Ok o -> map fst o = columns.
Proof.
  split; [|split].
  - assert (E : nodup string_dec columns = columns)
      by (vm_compute; reflexivity).
    rewrite <- E. apply NoDup_nodup.
  - reflexivity.
  - intros rt charge o H.
    rewrite (object_literal_keys _ _ H). apply columns_of_inits.
Qed.

Lemma mapCharge_columns_witness :
  exists o,
    mapCharge Sample.runtime Data.unexpanded = Ok o /\ map fst o = columns.
Proof.
  eexists. assert (H : mapCharge Sample.runtime Data.unexpanded = Ok _)
    by (vm_compute; reflexivity).
  split; [exact H|].
  exact (proj2 (proj2 mapCharge_columns) _ _ _ H).
Defined.

Lemma or_default v :
  JS.or v (VStr "") = VStr "" \/ truthy (JS.or v (VStr "")) = true.
Proof.
  unfold JS.or. destruct (truthy v) eqn:Hv; [right; exact Hv | left; reflexivity].
Qed.

(** X11. A column whose initialiser ends in [|| ""] never holds
    [undefined], [null], [false], zero or NaN: it is the empty string or a
    value that counts as true. *)
Theorem mapCharge_defaulted_columns :
  forall rt charge o,
    mapCharge rt charge = Ok o ->
    Forall (fun k => prop o k = VStr "" \/ truthy (prop o k) = true)
      defaulted_columns.
Proof.
  intros rt charge o H. unfold defaulted_columns.
  repeat (apply Forall_cons;
          [ cbv beta;
            match goal with
            | |- prop _ ?k = _ \/ _ =>
                let E := fresh "E" in
                column H k E;
                first
                  [ injection E as E; rewrite <- E; apply or_default
                  | destruct (truthy (prop charge "balance_transaction"))
                      eqn:Hx;
                    [ rewrite (get_truthy _ _ Hx) in E; simpl in E;
                      injection E as E; rewrite <- E; apply or_default
                    | injection E as E; rewrite <- E; left; reflexivity ] ]
            end | ]);
    apply Forall_nil.
Qed.

Lemma mapCharge_defaulted_columns_witness :
  exists o,
    mapCharge Sample.runtime Data.unexpanded = Ok o
    /\ Forall (fun k => prop o k = VStr "" \/ truthy (prop o k) = true)
         defaulted_columns.
Proof.
  eexists. assert (H : mapCharge Sample.runtime Data.unexpanded = Ok _)
    by (vm_compute; reflexivity).
  split; [exact H|].
  exact (mapCharge_defaulted_columns _ _ _ H).
Defined.

(** X12. [Mode] is "payment_intent" or "charge", and it is "charge"
    exactly when the [PaymentIntent ID] column is empty. *)
Theorem mapCharge_mode :
  forall rt charge o,
    mapCharge rt charge = Ok o ->
    (prop o "Mode" = VStr "payment_intent" \/ prop o "Mode" = VStr "charge")
    /\ (prop o "Mode" = VStr "charge" <-> prop o "PaymentIntent ID" = VStr "").
Proof.
  intros rt charge o H.
  column H "Mode" Emode. column H "PaymentIntent ID" Eid.
  injection Emode as Emode. injection Eid as Eid.
  rewrite <- Emode, <- Eid. unfold JS.or.
  destruct (truthy (prop charge "payment_intent")) eqn:Hpi.
  - split; [left; reflexivity|]. split; [discriminate|].
    intros E. rewrite E in Hpi. discriminate Hpi.
  - split; [right; reflexivity|]. split; reflexivity.
Qed.

Lemma mapCharge_mode_witness :
  exists o,
    mapCharge Sample.runtime
      (("payment_intent", VStr "pi_1") :: Data.charge "ch_1" "succeeded")
    = Ok o
    /\ (prop o "Mode" = VStr "payment_intent" \/ prop o "Mode" = VStr "charge")
    /\ (prop o "Mode" = VStr "charge" <-> prop o "PaymentIntent ID" = VStr "").
Proof.
  eexists.
  assert (H : mapCharge Sample.runtime
                (("payment_intent", VStr "pi_1")
                 :: Data.charge "ch_1" "succeeded") = Ok _)
    by (vm_compute; reflexivity).
  split; [exact H|].
  exact (mapCharge_mode _ _ _ H).
Defined.

(** X13. [Is Link] is a boolean, and it is [true] exactly when the
    [Payment Source Type] column is "link". *)
Theorem mapCharge_is_link :
  forall rt charge o,
    mapCharge rt charge = Ok o ->
    exists b,
      prop o "Is Link" = VBool b
      /\ (b = true <-> prop o "Payment Source Type" = VStr "link").
Proof.
  intros rt charge o H.
  column H "Is Link" Elink. column H "Payment Source Type" Etype.
  injection Elink as Elink. injection Etype as Etype.
  eexists. split; [symmetry; exact Elink|].
  rewrite <- Etype. unfold JS.or, strict_eq_string.
  destruct (oget (prop charge "payment_method_details") "type")
    as [| |b|x|s|items|fields] eqn:Htype; simpl;
    try (split; [discriminate|]).
  - discriminate.
  - discriminate.
  - destruct b; discriminate.
  - destruct (negb _ && negb _); discriminate.
  - destruct (String.eqb_spec s "link") as [->|Hne].
    + split; reflexivity.
    + split; [discriminate|].
      destruct (negb (String.eqb s "")); [congruence | discriminate].
  - discriminate.
  - discriminate.
Qed.

Lemma mapCharge_is_link_witness :
  exists o,
    mapCharge Sample.runtime
      (("payment_method_details", VObj [ ("type", VStr "link") ])
       :: Data.charge "ch_1" "succeeded")
    = Ok o
    /\ exists b,
         prop o "Is Link" = VBool b
         /\ (b = true <-> prop o "Payment Source Type" = VStr "link").
Proof.
  eexists.
  assert (H : mapCharge Sample.runtime
                (("payment_method_details", VObj [ ("type", VStr "link") ])
                 :: Data.charge "ch_1" "succeeded") = Ok _)
    by (vm_compute; reflexivity).
  split; [exact H|].
  exact (mapCharge_is_link _ _ _ H).
Defined.

(** X14. The two customer columns read the same field in two ways.  When
    [customer] is an identifier (a string, as Stripe sends it unless the
    customer is expanded), [Customer ID] is that string and
    [Customer Description] is [undefined]; when it is an object,
    [Customer Description] is its [description] and [Customer ID] is the
    whole object, not its [id]. *)
Theorem mapCharge_customer :
  forall rt charge o,
    mapCharge rt charge = Ok o ->
    (forall s, prop charge "customer" = VStr s -> s <> "" ->
               prop o "Customer ID" = VStr s
               /\ prop o "Customer Description" = VUndefined)
    /\ (forall fields, prop charge "customer" = VObj fields ->
                       prop o "Customer ID" = VObj fields
                       /\ prop o "Customer Description"
                          = prop fields "description").
Proof.
  intros rt charge o H.
  column H "Customer ID" Eid. column H "Customer Description" Edesc.
  split.
  - intros s Hs Hne. rewrite Hs in Eid, Edesc.
    unfold JS.or in Eid. simpl in Eid, Edesc.
    destruct (String.eqb_spec s ""); [contradiction|].
    simpl in Eid, Edesc. split; congruence.
  - intros fields Hfields. rewrite Hfields in Eid, Edesc.
    unfold JS.or in Eid. simpl in Eid, Edesc. split; congruence.
Qed.

Lemma mapCharge_customer_witness :
  exists o,
    mapCharge Sample.runtime Data.unexpanded = Ok o
    /\ prop o "Customer ID" = VStr "cus_1"
    /\ prop o "Customer Description" = VUndefined.
Proof.
  eexists. assert (H : mapCharge Sample.runtime Data.unexpanded = Ok _)
    by (vm_compute; reflexivity).
  split; [exact H|].
  apply (proj1 (mapCharge_customer _ _ _ H) "cus_1");
    [reflexivity | discriminate].
Defined.

(** X15. When [balance_transaction] is an identifier (a string, as
    Stripe sends it unless it is expanded), the guard lets it through and
    [Fee] is NaN, while [Taxes On Fee] is the empty string. *)
Theorem mapCharge_balance_transaction_id :
  forall rt charge o s,
    mapCharge rt charge = Ok o ->
    prop charge "balance_transaction" = VStr s ->
    s <> "" ->
    (exists x, prop o "Fee" = VNum x /\ isNaN x = true)
    /\ prop o "Taxes On Fee" = VStr "".
Proof.
  intros rt charge o s H Hs Hne.
  column H "Fee" Efee. column H "Taxes On Fee" Etax.
  rewrite Hs in Efee, Etax. simpl in Efee, Etax.
  destruct (String.eqb_spec s ""); [contradiction|].
  simpl in Efee, Etax. split.
  - eexists. split; [symmetry; injection Efee as Efee; exact Efee|].
    reflexivity.
  - unfold JS.or in Etax. simpl in Etax. congruence.
Qed.

Lemma mapCharge_balance_transaction_id_witness :
  exists o,
    mapCharge Sample.runtime Data.unexpanded = Ok o
    /\ (exists x, prop o "Fee" = VNum x /\ isNaN x = true)
    /\ prop o "Taxes On Fee" = VStr "".
Proof.
  eexists. assert (H : mapCharge Sample.runtime Data.unexpanded = Ok _)
    by (vm_compute; reflexivity).
  split; [exact H|].
  apply (mapCharge_balance_transaction_id _ _ _ "txn_1" H);
    [reflexivity | discriminate].
Defined.

(** X16. No conversion is made: the [Converted Currency] column is the
    [Currency] column and [Converted Amount Refunded] is
    [Amount Refunded]. *)
Theorem mapCharge_converted_columns :
  forall rt charge o,
    mapCharge rt charge = Ok o ->
    prop o "Converted Currency" = prop o "Currency"
    /\ prop o "Converted Amount Refunded" = prop o "Amount Refunded".
Proof.
  intros rt charge o H.
  column H "Converted Currency" E1. column H "Currency" E2.
  column H "Converted Amount Refunded" E3. column H "Amount Refunded" E4.
  split; congruence.
Qed.

Lemma mapCharge_converted_columns_witness :
  exists o,
    mapCharge Sample.runtime Data.unexpanded = Ok o
    /\ prop o "Converted Currency" = prop o "Currency"
    /\ prop o "Converted Amount Refunded" = prop o "Amount Refunded".
Proof.
  eexists. assert (H : mapCharge Sample.runtime Data.unexpanded = Ok _)
    by (vm_compute; reflexivity).
  split; [exact H|].
  exact (mapCharge_converted_columns _ _ _ H).
Defined.

(** ** [mapTransactionData] over a list *)

Lemma mapTransactionData_Forall2 rt charges : forall rows,
  mapTransactionData rt charges = Ok rows
  <-> Forall2 (fun charge o => mapCharge rt charge = Ok o) charges rows.
Proof.
  induction charges as [|charge charges IH]; intros rows.
  - simpl. split.
    + intros H. inversion H. constructor.
    + intros H. inversion H. reflexivity.
  - simpl. split.
    + intros H. destruct (mapCharge rt charge) as [o|e] eqn:Ho;
        [|discriminate H].
      simpl in H.
      destruct (mapTransactionData rt charges) as [os|e] eqn:Hos;
        [|discriminate H].
      inversion H; subst. constructor; [assumption|]. now apply IH.
    + intros H. inversion H as [|? o ? os Ho Hos]; subst.
      rewrite Ho. simpl. apply IH in Hos. rewrite Hos. reflexivity.
Qed.

(** X17. [mapTransactionData] returns rows exactly when [mapCharge]
    returns one for every charge; the rows are then those records, one
    per charge and in the order of the charges. *)
Theorem mapTransactionData_rows :
  forall rt charges rows,
    (mapTransactionData rt charges = Ok rows
     <-> Forall2 (fun charge o => mapCharge rt charge = Ok o) charges rows)
    /\ (mapTransactionData rt charges = Ok rows ->
        List.length rows = List.length charges).
Proof.
  intros rt charges rows. split; [apply mapTransactionData_Forall2|].
  intros H. apply mapTransactionData_Forall2 in H.
  symmetry. exact (Forall2_length H).
Qed.

(** X18. One charge [mapCharge] throws on ends [mapTransactionData] with
    that error, whatever the number of charges mapped before it and
    whatever follows. *)
Theorem mapTransactionData_first_error :
  forall rt before charge after e,
    Forall (required_fields rt) before ->
    mapCharge rt charge = Throw e ->
    mapTransactionData rt (before ++ charge :: after) = Throw e.
Proof.
  intros rt before charge after e Hbefore Hthrow.
  induction Hbefore as [|first before Hfirst _ IH]; simpl.
  - now rewrite Hthrow.
  - destruct (mapCharge_total rt first Hfirst) as [o ->]. simpl.
    now rewrite IH.
Qed.

Lemma mapTransactionData_first_error_witness :
  mapTransactionData Sample.runtime
    ([ Data.charge "ch_1" "succeeded" ]
       ++ [ ("id", VStr "ch_2"); ("created", VNum 1704067200%float) ]
       :: [ Data.charge "ch_3" "succeeded" ])
  = Throw TypeError.
Proof.
  apply mapTransactionData_first_error.
  - constructor; [exact required_fields_sample | constructor].
  - vm_compute. reflexivity.
Defined.

(** ** The request handlers, continued *)

Lemma fetchTransactions_sends startDate endDate stripe :
  fst (fetchTransactions startDate endDate stripe) <> [].
Proof.
  rewrite fetchTransactions_requests.
  destruct (while_hasMore startDate endDate stripe initial)
    as [requests outcome] eqn:Hrun.
  destruct (proj1 (while_trace _ _ _ _ _ _ Hrun) eq_refl) as [rest ->].
  discriminate.
Qed.

Lemma fetchTransactions_returned startDate endDate stripe requests txs :
  fetchTransactions startDate endDate stripe = (requests, Returned txs) ->
  Forall (fun charge => succeeded charge = true) txs.
Proof.
  unfold fetchTransactions.
  destruct (while_hasMore startDate endDate stripe initial)
    as [reqs [st|err|]]; intros H; inversion H; subst.
  apply Forall_forall. intros charge Hin.
  now apply filter_In in Hin as [_ Hs].
Qed.

(** X19. Fetching and mapping compose: every row made from what
    [fetchTransactions] returns has "succeeded" in its [Status] column,
    and there is one row per record returned. *)
Theorem export_rows_succeeded :
  forall rt startDate endDate stripe requests transactions rows,
    fetchTransactions startDate endDate stripe
    = (requests, Returned transactions) ->
    mapTransactionData rt transactions = Ok rows ->
    Forall (fun o => prop o "Status" = VStr "succeeded") rows
    /\ List.length rows = List.length transactions.
Proof.
  intros rt s e stripe requests transactions rows Hfetch Hmap.
  apply fetchTransactions_returned in Hfetch.
  apply mapTransactionData_Forall2 in Hmap.
  split; [|symmetry; exact (Forall2_length Hmap)].
  induction Hmap as [|charge o charges os Ho _ IH]; [constructor|].
  inversion Hfetch as [|? ? Hcharge Hcharges]; subst.
  constructor; [|exact (IH Hcharges)].
  column Ho "Status" E. apply succeeded_status in Hcharge. congruence.
Qed.

Lemma export_rows_succeeded_witness :
  exists rows,
    mapTransactionData Sample.runtime
      [ Data.charge "ch_1" "succeeded"; Data.charge "ch_4" "succeeded" ]
    = Ok rows
    /\ Forall (fun o => prop o "Status" = VStr "succeeded") rows
    /\ List.length rows = 2%nat.
Proof.
  eexists.
  assert (H : mapTransactionData Sample.runtime
                [ Data.charge "ch_1" "succeeded";
                  Data.charge "ch_4" "succeeded" ] = Ok _)
    by (vm_compute; reflexivity).
  split; [exact H|].
  exact (export_rows_succeeded Sample.runtime 0 1 (paged Data.mixed)
           _ _ _ eq_refl H).
Defined.

(** X20. [transactions] never lets an exception out.  It sends at most
    one request, and once the source answers at all it writes a response
    whose status is 200, 400 or 500. *)
Theorem transactions_always_answers :
  forall rt req stripe,
    (forall e, snd (transactions rt req stripe) <> Threw e)
    /\ (List.length (fst (transactions rt req stripe)) <= 1)%nat
    /\ (stripe <> [] ->
        exists response,
          snd (transactions rt req stripe) = Returned response
          /\ (status_code response = 200
              \/ status_code response = 400
              \/ status_code response = 500)).
Proof.
  intros rt req stripe. unfold transactions.
  assert (Hanswer : forall (requests : list Params) (response : Response),
    (List.length requests <= 1)%nat ->
    status_code response = 200 \/ status_code response = 400
    \/ status_code response = 500 ->
    (forall e, snd (requests, Returned response) <> Threw e)
    /\ (List.length (fst (requests, Returned response)) <= 1)%nat
    /\ (stripe <> [] ->
        exists response',
          snd (requests, Returned response) = Returned response'
          /\ (status_code response' = 200
              \/ status_code response' = 400
              \/ status_code response' = 500))).
  { intros requests response Hlen Hstatus.
    split; [discriminate|]. split; [exact Hlen|]. intros _.
    exists response. split; [reflexivity | exact Hstatus]. }
  destruct (parseInt rt (prop (query req) "page")) as [parsed|err];
    [|apply Hanswer; simpl; auto].
  destruct (truthy (prop (query req) "startDate")); simpl negb; cbv iota;
    [|apply Hanswer; simpl; auto].
  destruct (truthy (prop (query req) "endDate")); simpl negb; cbv iota;
    [|apply Hanswer; simpl; auto].
  destruct (new_Date rt (prop (query req) "startDate")) as [start|err];
    [|apply Hanswer; simpl; auto].
  destruct (new_Date rt (prop (query req) "endDate")) as [end_|err];
    [|apply Hanswer; simpl; auto].
  destruct start as [start|]; [|apply Hanswer; simpl; auto].
  destruct end_ as [end_|]; [|apply Hanswer; simpl; auto].
  destruct (end_ <? start); [apply Hanswer; simpl; auto|].
  destruct stripe as [|list rest].
  - split; [discriminate|]. split; [simpl; lia | contradiction].
  - destruct (list _) as [response|err]; apply Hanswer; simpl; auto.
Qed.

(** X21. [exportTransactionsToCSV] writes a response in two cases only:
    a refusal, with status 400, an error message and no request sent, or
    the CSV text with status 200.  It never answers 500. *)
Theorem export_responses :
  forall rt req stripe requests response,
    exportTransactionsToCSV rt req stripe = (requests, Returned response) ->
    (status_code response = 400
     /\ requests = []
     /\ exists message, payload response = JsonError message)
    \/ (status_code response = 200
        /\ requests <> []
        /\ exists csv, payload response = Text csv).
Proof.
  intros rt req stripe requests response. unfold exportTransactionsToCSV.
  assert (Hrefused : forall message,
    ([], Returned (error_response 400 message))
    = (requests, Returned response) ->
    status_code response = 400
    /\ requests = []
    /\ exists message, payload response = JsonError message).
  { intros message H. injection H as <- <-.
    split; [reflexivity|]. split; [reflexivity|]. now exists message. }
  destruct (truthy (prop (query req) "startDate")); simpl negb; cbv iota;
    [|intros H; left; exact (Hrefused _ H)].
  destruct (truthy (prop (query req) "endDate")); simpl negb; cbv iota;
    [|intros H; left; exact (Hrefused _ H)].
  destruct (new_Date rt (prop (query req) "startDate")) as [start|err];
    [|discriminate].
  destruct (new_Date rt (prop (query req) "endDate")) as [end_|err];
    [|discriminate].
  destruct start as [start|]; [|intros H; left; exact (Hrefused _ H)].
  destruct end_ as [end_|]; [|intros H; left; exact (Hrefused _ H)].
  destruct (end_ <? start); [intros H; left; exact (Hrefused _ H)|].
  pose proof (fetchTransactions_sends (Date.epochSeconds start)
                (Date.epochSeconds end_) stripe) as Hsends.
  destruct (fetchTransactions _ _ stripe) as [reqs [txs|err|]];
    simpl in Hsends; intros H; try discriminate H.
  injection H as Hreqs Hout. subst reqs. right.
  destruct (mapTransactionData rt txs) as [rows|e]; [|discriminate Hout].
  simpl in Hout.
  destruct (Object_keys_first rows) as [fields|e]; [|discriminate Hout].
  simpl in Hout.
  destruct (json2csv_parse rt fields rows) as [csv|e]; [|discriminate Hout].
  inversion Hout; subst. simpl.
  split; [reflexivity|]. split; [assumption|]. now exists csv.
Qed.

Lemma export_responses_witness :
  (status_code (error_response 400 "startDate is required") = 400
   /\ @nil Params = []
   /\ exists message,
       payload (error_response 400 "startDate is required")
       = JsonError message)
  \/ (status_code (error_response 400 "startDate is required") = 200
      /\ @nil Params <> []
      /\ exists csv,
          payload (error_response 400 "startDate is required") = Text csv).
Proof.
  apply (export_responses Sample.runtime Data.no_startDate Data.failing).
  reflexivity.
Defined.

(** X22. The two handlers refuse the same requests in the same way.  For
    a request whose [page] can be converted to a string, [transactions]
    answers 400 without having called Stripe exactly when
    [exportTransactionsToCSV] writes a response without having called
    it, and the two responses are the same, whatever the source. *)
Theorem handlers_refuse_alike :
  forall rt req stripe stripe' response,
    converts (prop (query req) "page") = true ->
    (transactions rt req stripe = ([], Returned response)
     /\ status_code response = 400)
    <-> exportTransactionsToCSV rt req stripe' = ([], Returned response).
Proof.
  intros rt req stripe stripe' response Hpage.
  unfold transactions, exportTransactionsToCSV.
  rewrite (parseInt_converts _ _ Hpage).
  assert (Hrefused : forall message,
    (([], Returned (error_response 400 message))
     = (@nil Params, Returned response)
     /\ status_code response = 400)
    <-> ([], Returned (error_response 400 message))
        = (@nil Params, Returned response)).
  { intros message. split; [now intros [H _]|].
    intros H. split; [exact H|]. now inversion H. }
  destruct (truthy (prop (query req) "startDate")); simpl negb; cbv iota;
    [|apply Hrefused].
  destruct (truthy (prop (query req) "endDate")); simpl negb; cbv iota;
    [|apply Hrefused].
  destruct (new_Date rt (prop (query req) "startDate")) as [start|err].
  2: { split; [|discriminate]. intros [H Hstatus]. inversion H; subst.
       discriminate Hstatus. }
  destruct (new_Date rt (prop (query req) "endDate")) as [end_|err].
  2: { split; [|discriminate]. intros [H Hstatus]. inversion H; subst.
       discriminate Hstatus. }
  destruct start as [start|]; [|apply Hrefused].
  destruct end_ as [end_|]; [|apply Hrefused].
  destruct (end_ <? start); [apply Hrefused|].
  pose proof (fetchTransactions_sends (Date.epochSeconds start)
                (Date.epochSeconds end_) stripe') as Hsends.
  destruct (fetchTransactions _ _ stripe') as [reqs fetched].
  simpl in Hsends. split.
  - intros [H _]. destruct stripe as [|list rest]; [discriminate H|].
    destruct (list _); discriminate H.
  - intros H. inversion H. contradiction.
Qed.

Lemma handlers_refuse_alike_witness :
  (transactions Sample.runtime Data.inverted (paged Data.mixed)
   = ([], Returned
            (error_response 400
               "endDate must be greater than or equal to startDate"))
   /\ status_code
        (error_response 400
           "endDate must be greater than or equal to startDate") = 400)
  <-> exportTransactionsToCSV Sample.runtime Data.inverted Data.failing
      = ([], Returned
               (error_response 400
                  "endDate must be greater than or equal to startDate")).
Proof.
  apply (handlers_refuse_alike Sample.runtime Data.inverted). reflexivity.
Defined.

(** X23. The checks run in a fixed order and before any call to Stripe:
    a [startDate] that is absent or empty is reported first, whatever
    [endDate] is; then an absent or empty [endDate]; then a date that
    does not parse, with one message for either date.
    [exportTransactionsToCSV] does so for every request, [transactions]
    for every request whose [page] can be converted to a string. *)
Theorem validation_order :
  forall rt req stripe,
    let startDate := prop (query req) "startDate" in
    let endDate := prop (query req) "endDate" in
    let page := prop (query req) "page" in
    let refused message := ([], Returned (error_response 400 message)) in
    (truthy startDate = false ->
     (converts page = true ->
      transactions rt req stripe = refused "startDate is required")
     /\ exportTransactionsToCSV rt req stripe
        = refused "startDate is required")
    /\ (truthy startDate = true -> truthy endDate = false ->
        (converts page = true ->
         transactions rt req stripe = refused "endDate is required")
        /\ exportTransactionsToCSV rt req stripe
           = refused "endDate is required")
    /\ (forall start end_,
          truthy startDate = true -> truthy endDate = true ->
          new_Date rt startDate = Ok start ->
          new_Date rt endDate = Ok end_ ->
          start = None \/ end_ = None ->
          (converts page = true ->
           transactions rt req stripe = refused "Both dates must be valid.")
          /\ exportTransactionsToCSV rt req stripe
             = refused "Both dates must be valid.").
Proof.
  intros rt req stripe startDate endDate page refused.
  subst startDate endDate page refused.
  unfold transactions, exportTransactionsToCSV.
  split; [|split].
  - intros ->. split; [|reflexivity].
    intros Hpage. now rewrite (parseInt_converts _ _ Hpage).
  - intros -> ->. split; [|reflexivity].
    intros Hpage. now rewrite (parseInt_converts _ _ Hpage).
  - intros start end_ -> -> -> -> Hnone. split.
    + intros Hpage. rewrite (parseInt_converts _ _ Hpage). simpl.
      destruct Hnone as [-> | ->]; [reflexivity|]. now destruct start.
    + simpl. destruct Hnone as [-> | ->]; [reflexivity|]. now destruct start.
Qed.

Lemma validation_order_witness :
  (transactions Sample.runtime Data.empty_startDate Data.failing
   = ([], Returned (error_response 400 "startDate is required")))
  /\ (exportTransactionsToCSV Sample.runtime Data.no_endDate Data.failing
      = ([], Returned (error_response 400 "endDate is required")))
  /\ (transactions Sample.runtime Data.unparsable_endDate Data.failing
      = ([], Returned (error_response 400 "Both dates must be valid."))).
Proof.
  split; [|split].
  - apply (proj1 (proj1 (validation_order Sample.runtime
                           Data.empty_startDate Data.failing) eq_refl)).
    reflexivity.
  - apply (proj2 (proj1 (proj2 (validation_order Sample.runtime
                                  Data.no_endDate Data.failing))
                    eq_refl eq_refl)).
  - apply (proj1 (proj2 (proj2 (validation_order Sample.runtime
                                  Data.unparsable_endDate Data.failing))
                    (Some 1704067200000) None eq_refl eq_refl eq_refl
                    eq_refl (or_intror eq_refl))).
    reflexivity.
Defined.

(** X24. On a range that passes the checks, equal dates included, and
    with a [page] that can be converted to a string, [transactions] sends
    one request, for 10000 records of status "succeeded" between the two
    dates in whole seconds and without cursor, and hands the answer over
    as it is, with status 200: the records are not filtered again. *)
Theorem transactions_passes_response :
  forall rt req list rest start end_ response,
    converts (prop (query req) "page") = true ->
    truthy (prop (query req) "startDate") = true ->
    truthy (prop (query req) "endDate") = true ->
    new_Date rt (prop (query req) "startDate") = Ok (Some start) ->
    new_Date rt (prop (query req) "endDate") = Ok (Some end_) ->
    start <= end_ ->
    let params :=
      {| created_gte := start / 1000;
         created_lte := end_ / 1000;
         limit := 10000;
         status := "succeeded";
         starting_after := None |} in
    list params = Resolve response ->
    transactions rt req (list :: rest)
    = ([params],
       Returned {| status_code := 200; payload := JsonList response |}).
Proof.
  intros rt req list rest start end_ response Hpage Hs He Hstart Hend Hle
    params Hanswer.
  unfold transactions.
  rewrite (parseInt_converts _ _ Hpage), Hs, He, Hstart, Hend.
  destruct (Z.ltb_spec end_ start); [lia|].
  simpl. unfold Date.epochSeconds. fold params. now rewrite Hanswer.
Qed.

Lemma transactions_passes_response_witness :
  transactions Sample.runtime
    {| query := [ ("startDate", VStr "2024-01-01");
                  ("endDate", VStr "2024-01-01") ] |}
    (paged Data.mixed)
  = ([ {| created_gte := 1704067200;
          created_lte := 1704067200;
          limit := 10000;
          status := "succeeded";
          starting_after := None |} ],
     Returned
       {| status_code := 200;
          payload :=
            JsonList (Data.page [ Data.charge "ch_1" "succeeded";
                                  Data.charge "ch_2" "failed" ] true) |}).
Proof.
  apply (transactions_passes_response Sample.runtime _ _ _
           1704067200000 1704067200000); reflexivity.
Defined.

(** X25. Every request either handler sends has its lower bound at or
    below its upper bound: rounding the two dates down to whole seconds
    keeps their order. *)
Theorem requests_bounds_ordered :
  forall rt req stripe,
    Forall (fun params => created_gte params <= created_lte params)
      (fst (transactions rt req stripe))
    /\ Forall (fun params => created_gte params <= created_lte params)
         (fst (exportTransactionsToCSV rt req stripe)).
Proof.
  intros rt req stripe. unfold transactions, exportTransactionsToCSV.
  destruct (truthy (prop (query req) "startDate")); simpl negb; cbv iota;
    [|destruct (parseInt rt _); split; constructor].
  destruct (truthy (prop (query req) "endDate")); simpl negb; cbv iota;
    [|destruct (parseInt rt _); split; constructor].
  destruct (new_Date rt (prop (query req) "startDate")) as [start|err];
    [|destruct (parseInt rt _); split; constructor].
  destruct (new_Date rt (prop (query req) "endDate")) as [end_|err];
    [|destruct (parseInt rt _); split; constructor].
  destruct start as [start|];
    [|destruct (parseInt rt _); split; constructor].
  destruct end_ as [end_|];
    [|destruct (parseInt rt _); split; constructor].
  destruct (Z.ltb_spec end_ start) as [|Hle];
    [destruct (parseInt rt _); split; constructor|].
  assert (Hseconds : Date.epochSeconds start <= Date.epochSeconds end_)
    by (apply Z.div_le_mono; lia).
  split.
  - destruct (parseInt rt _); [|constructor].
    destruct stripe as [|list rest]; [repeat constructor; exact Hseconds|].
    destruct (list _); repeat constructor; exact Hseconds.
  - pose proof (fetchTransactions_requests (Date.epochSeconds start)
                  (Date.epochSeconds end_) stripe) as Hreqs.
    pose proof (while_request_shape (Date.epochSeconds start)
                  (Date.epochSeconds end_) stripe initial) as Hshape.
    rewrite <- Hreqs in Hshape.
    destruct (fetchTransactions _ _ stripe) as [requests fetched].
    simpl in *. eapply Forall_impl; [|exact Hshape].
    intros params (-> & -> & _). exact Hseconds.
Qed.

(** X26. On a range that passes the checks, when [fetchTransactions]
    returns at least one record and every record can be mapped, the
    export hands json2csv the 82 fixed column names and one row per
    record, and answers 200 with the text it gives back; an exception of
    json2csv leaves the handler like any other. *)
Theorem export_success :
  forall rt req stripe start end_ requests transactions,
    truthy (prop (query req) "startDate") = true ->
    truthy (prop (query req) "endDate") = true ->
    new_Date rt (prop (query req) "startDate") = Ok (Some start) ->
    new_Date rt (prop (query req) "endDate") = Ok (Some end_) ->
    start <= end_ ->
    fetchTransactions (start / 1000) (end_ / 1000) stripe
    = (requests, Returned transactions) ->
    transactions <> [] ->
    Forall (required_fields rt) transactions ->
    exists rows,
      Forall2 (fun charge o => mapCharge rt charge = Ok o) transactions rows
      /\ exportTransactionsToCSV rt req stripe
         = (requests,
            match json2csv_parse rt columns rows with
            | Ok csv => Returned {| status_code := 200; payload := Text csv |}
            | Throw e => Threw e
            end).
Proof.
  intros rt req stripe start end_ requests transactions Hs He Hstart Hend
    Hle Hfetch Hne Hall.
  assert (Hrows : exists rows, mapTransactionData rt transactions = Ok rows).
  { clear Hfetch Hne. induction Hall as [|charge charges Hcharge _ [os IH]].
    - now exists [].
    - destruct (mapCharge_total rt charge Hcharge) as [o Ho].
      exists (o :: os). simpl. now rewrite Ho, IH. }
  destruct Hrows as [rows Hrows]. exists rows.
  pose proof (proj1 (mapTransactionData_Forall2 rt transactions rows) Hrows)
    as Hforall2.
  split; [exact Hforall2|].
  unfold exportTransactionsToCSV. rewrite Hs, He, Hstart, Hend.
  destruct (Z.ltb_spec end_ start); [lia|].
  simpl negb. cbv iota. unfold Date.epochSeconds. rewrite Hfetch, Hrows.
  destruct Hforall2 as [|charge o charges os Ho _]; [contradiction|].
  simpl. rewrite (object_literal_keys _ _ Ho), columns_of_inits.
  reflexivity.
Qed.

Lemma export_success_witness :
  exists requests csv,
    exportTransactionsToCSV Sample.runtime Data.january (paged Data.mixed)
    = (requests, Returned {| status_code := 200; payload := Text csv |}).
Proof.
  destruct (export_success Sample.runtime Data.january (paged Data.mixed)
              1704067200000 1706745600000
              (fst (fetchTransactions 1704067200 1706745600
                      (paged Data.mixed)))
              [ Data.charge "ch_1" "succeeded";
                Data.charge "ch_4" "succeeded" ])
    as (rows & _ & Hexport); try reflexivity.
  - discriminate.
  - discriminate.
  - repeat constructor; try (eexists; reflexivity);
      try discriminate; eexists; vm_compute; reflexivity.
  - rewrite Hexport. eexists _, _. reflexivity.
Defined.

(** X27. On a range that passes the checks, one fetched record that
    cannot be mapped (no valid [created], no string [currency], or a
    refund that is announced and missing) makes the whole export end with
    an exception and without a response, however many good records come
    with it. *)
Theorem export_bad_record :
  forall rt req stripe start end_ requests transactions,
    truthy (prop (query req) "startDate") = true ->
    truthy (prop (query req) "endDate") = true ->
    new_Date rt (prop (query req) "startDate") = Ok (Some start) ->
    new_Date rt (prop (query req) "endDate") = Ok (Some end_) ->
    start <= end_ ->
    fetchTransactions (start / 1000) (end_ / 1000) stripe
    = (requests, Returned transactions) ->
    Exists (fun charge => ~ required_fields rt charge) transactions ->
    exists e, exportTransactionsToCSV rt req stripe = (requests, Threw e).
Proof.
  intros rt req stripe start end_ requests transactions Hs He Hstart Hend
    Hle Hfetch Hbad.
  assert (Hthrow : exists e, mapTransactionData rt transactions = Throw e).
  { destruct (mapTransactionData rt transactions) as [rows|e] eqn:Hmap;
      [|now exists e].
    exfalso. apply mapTransactionData_Forall2 in Hmap.
    clear Hfetch. induction Hmap as [|charge o charges os Ho _ IH].
    - inversion Hbad.
    - inversion Hbad as [? ? Hcharge|? ? Hrest]; subst.
      + apply Hcharge. exact (mapCharge_requires _ _ _ Ho).
      + exact (IH Hrest). }
  destruct Hthrow as [e Hthrow]. exists e.
  unfold exportTransactionsToCSV. rewrite Hs, He, Hstart, Hend.
  destruct (Z.ltb_spec end_ start); [lia|].
  simpl negb. cbv iota. unfold Date.epochSeconds.
  rewrite Hfetch, Hthrow. reflexivity.
Qed.

Lemma export_bad_record_witness :
  exists e,
    exportTransactionsToCSV Sample.runtime Data.january
      (paged [ Data.page [ Data.charge "ch_1" "succeeded";
                           [ ("id", VStr "ch_8");
                             ("created", VNum 1704067200%float);
                             ("status", VStr "succeeded") ] ] false ])
    = ([ Data.request 1704067200 1706745600 None ], Threw e).
Proof.
  apply (export_bad_record Sample.runtime Data.january _
           1704067200000 1706745600000 _
           [ Data.charge "ch_1" "succeeded";
             [ ("id", VStr "ch_8");
               ("created", VNum 1704067200%float);
               ("status", VStr "succeeded") ] ]); try reflexivity.
  - discriminate.
  - right. left. intros (_ & [s Hs] & _). discriminate Hs.
Defined.

Lemma new_Date_throws rt v :
  converts v = false -> new_Date rt v = Throw TypeError.
Proof.
  destruct v; intros H; try discriminate H;
    unfold new_Date, convert; now rewrite H.
Qed.

Lemma new_Date_converts rt v :
  converts v = true -> exists date, new_Date rt v = Ok date.
Proof.
  destruct v; intros H; unfold new_Date, convert; try rewrite H;
    now eexists.
Qed.

(** X28. A [startDate] or [endDate] that cannot be converted to a string
    (an object with a property named [toString], or an array holding
    one) makes [new Date] throw: [transactions] catches it and answers
    500, [exportTransactionsToCSV] ends with the [TypeError] and writes
    no response; neither calls Stripe. *)
Theorem unconvertible_date :
  forall rt req stripe,
    truthy (prop (query req) "startDate") = true ->
    truthy (prop (query req) "endDate") = true ->
    converts (prop (query req) "startDate") = false
    \/ converts (prop (query req) "endDate") = false ->
    transactions rt req stripe
    = ([], Returned
             (error_response 500
                "An error occurred while fetching transactions"))
    /\ exportTransactionsToCSV rt req stripe = ([], Threw TypeError).
Proof.
  intros rt req stripe Hs He Hbad.
  unfold transactions, exportTransactionsToCSV. rewrite Hs, He. simpl negb.
  cbv iota.
  destruct (converts (prop (query req) "startDate")) eqn:Hstart.
  - destruct Hbad as [Hbad|Hbad]; [discriminate Hbad|].
    destruct (new_Date_converts rt _ Hstart) as [date ->].
    rewrite (new_Date_throws _ _ Hbad). split; [|reflexivity].
    destruct (parseInt rt (prop (query req) "page")); reflexivity.
  - rewrite (new_Date_throws _ _ Hstart). split; [|reflexivity].
    destruct (parseInt rt (prop (query req) "page")); reflexivity.
Qed.

Lemma unconvertible_date_witness :
  transactions Sample.runtime
    {| query := [ ("startDate", Data.page_object);
                  ("endDate", VStr "2024-01-01") ] |} (paged Data.mixed)
  = ([], Returned
           (error_response 500
              "An error occurred while fetching transactions"))
  /\ exportTransactionsToCSV Sample.runtime
       {| query := [ ("startDate", Data.page_object);
                     ("endDate", VStr "2024-01-01") ] |} (paged Data.mixed)
     = ([], Threw TypeError).
Proof.
  apply unconvertible_date; try reflexivity. left. reflexivity.
Defined.
